(** * Multi-Agent AI Assistant: routing-and-streaming orchestration

    A shallow embedding of the streaming back end of the assistant
    ([backend.py], [services/specialized_agents.py],
    [services/llm_service.py], [config/settings.py]) and the properties
    of its orchestration layer.

    Python asynchronous generators are embedded as finite trees of
    yields and calls to the external collaborators (memory store, tool
    providers, supervisor router, completion provider).  A run against
    an arbitrary, stateful environment produces the interleaved trace of
    yields and calls, the way the generator ended, and the final memory
    store. *)

From Stdlib Require Import List String Ascii Bool Arith NArith ZArith QArith Lia.
From Stdlib Require Import DecimalString.
Import ListNotations.

Set Warnings "-register-all".

Local Close Scope Q_scope.
Local Open Scope nat_scope.
Local Open Scope list_scope.

(** ** Python values *)

(** A Python [str] is a sequence of Unicode code points: [len] is
    [length], [s[:n]] is [firstn n s] and [+] is [++]. *)
Definition pychar := N.
Definition pystr := list pychar.

(** An ASCII literal of the source. *)
Definition lit (s : string) : pystr :=
  map N_of_ascii (list_ascii_of_string s).

(** The escape [\n] of the source's literals. *)
Definition nl : pystr := [10%N].

Fixpoint pystr_eqb (a b : pystr) : bool :=
  match a, b with
  | [], [] => true
  | x :: a', y :: b' => N.eqb x y && pystr_eqb a' b'
  | _, _ => false
  end.

(** [len(s)] *)
Definition len (s : pystr) : nat := List.length s.

(** [s[:n]] *)
Definition slice_to (n : nat) (s : pystr) : pystr := firstn n s.

(** Truthiness of a string: [if s] / [if not s]. *)
Definition str_truthy (s : pystr) : bool :=
  match s with [] => false | _ :: _ => true end.

(** Values that cross [json.dumps]: dictionaries keep insertion order. *)
Inductive json : Type :=
| JNull
| JNum (z : Z)
| JStr (s : pystr)
| JList (l : list json)
| JDict (d : list (pystr * json)).

Definition pydict := list (pystr * json).

(** [d.get(k)] *)
Fixpoint dict_get (k : pystr) (d : pydict) : option json :=
  match d with
  | [] => None
  | (k', v) :: d' => if pystr_eqb k k' then Some v else dict_get k d'
  end.

(** [d.get(k, default)] on a dictionary of strings, as the agents read
    the tool providers' snippets. *)
Definition snippet := list (pystr * pystr).

Fixpoint snippet_get (k : pystr) (default : pystr) (d : snippet) : pystr :=
  match d with
  | [] => default
  | (k', v) :: d' => if pystr_eqb k k' then v else snippet_get k default d'
  end.

Definition json_of_snippet (d : snippet) : json :=
  JDict (map (fun kv => (fst kv, JStr (snd kv))) d).

Definition json_of_snippets (l : list snippet) : json :=
  JList (map json_of_snippet l).

(** An exception (a subclass of [Exception]) is kept as its [str(e)]. *)
Definition exn := pystr.

Inductive result (A : Type) : Type :=
| Ok (a : A)
| Err (e : exn).
Arguments Ok {A} a.
Arguments Err {A} e.

(** ** Request and settings (backend.py, config/settings.py) *)

Record Message := { role : pystr; content : pystr }.

Record MultiModalRequest := {
  user_id : pystr;
  session_id : pystr;
  message : pystr;
  mode : pystr;
  conversation_history : option (list Message)
}.

Record Settings := {
  mem0_enabled : bool;
  primary_llm_model : pystr;
  agent_domains : list pystr
}.

Definition settings : Settings := {|
  mem0_enabled := true;
  primary_llm_model := lit "llama-3.1-8b-instant";
  agent_domains := [lit "research"; lit "finance"; lit "travel";
                    lit "shopping"; lit "jobs"; lit "recipes"]
|}.

(** What [supervisor_agent.route] returns, by the keys its callers read. *)
Record RoutingDecision := {
  recommended_agent : pystr;
  classified_domain : pystr;
  context : json
}.

(** A record of the memory store, by the arguments of [add_memory]. *)
Record MemoryRecord := {
  owner : pystr;
  mr_message : pystr;
  metadata : pydict
}.

(** ** The completion API of llm_service.py *)

(** A chunk of a streamed completion: [chunk.choices[i].delta.content]. *)
Record StreamChunk := { chunk_choices : list (option pystr) }.

(** The asynchronous iterator a streaming [create] returns: the chunks
    it delivers and, when iteration breaks, the exception raised after
    the last of them. *)
Record CompletionStream := {
  stream_chunks : list StreamChunk;
  stream_failure : option exn
}.

(** A complete response: [response.choices[i].message.content]. *)
Record ChatCompletion := { choices : list (option pystr) }.

Record CreateArgs := {
  ca_model : pystr;
  ca_messages : list Message;
  ca_temperature : Q;
  ca_max_tokens : Z
}.

(** ** Calls to the external collaborators *)

Inductive call : Type :=
| RetrieveMemories (uid : pystr) (limit : option nat)
| AddMemory (uid : pystr) (msg : pystr) (meta : pydict)
| Route (msg uid : pystr) (history : list Message) (user_memories : option pydict)
| SearchNews (query : pystr) (num_results : nat)
| SearchJobs (query : pystr) (num_results : nat)
| SearchRecipes (query : pystr) (num_results : nat)
| QueryDocuments (query : pystr)
| Ainvoke (prompt : pystr)
| CreateStream (args : CreateArgs)
| CreateCompletion (args : CreateArgs).

Definition resp (c : call) : Type :=
  match c with
  | RetrieveMemories _ _ => list json
  | AddMemory _ _ _ => unit
  | Route _ _ _ _ => RoutingDecision
  | SearchNews _ _ | SearchJobs _ _ | SearchRecipes _ _ => list snippet
  | QueryDocuments _ => list snippet
  | Ainvoke _ => pystr
  | CreateStream _ => CompletionStream
  | CreateCompletion _ => ChatCompletion
  end.

(** ** Generators *)

(** A generator yielding values of [Y] and returning an [A]: it
    returns, raises, yields and goes on, or awaits a collaborator and
    goes on with the answer or with the exception the call raised. *)
Inductive gen (Y A : Type) : Type :=
| Ret (a : A)
| Throw (e : exn)
| Yield (y : Y) (k : gen Y A)
| Ext (c : call) (k : result (resp c) -> gen Y A).
Arguments Ret {Y A} a.
Arguments Throw {Y A} e.
Arguments Yield {Y A} y k.
Arguments Ext {Y A} c k.

Fixpoint bind {Y A B} (g : gen Y A) (f : A -> gen Y B) : gen Y B :=
  match g with
  | Ret a => f a
  | Throw e => Throw e
  | Yield y k => Yield y (bind k f)
  | Ext c k => Ext c (fun r => bind (k r) f)
  end.

Declare Scope gen_scope.
Delimit Scope gen_scope with gen.
Notation "x <- g ;; k" := (bind g (fun x => k))
  (at level 61, g at next level, right associativity) : gen_scope.
Notation "g ;; k" := (bind g (fun _ => k))
  (at level 61, right associativity) : gen_scope.
Local Open Scope gen_scope.

(** [yield y] *)
Definition yield {Y} (y : Y) : gen Y unit := Yield y (Ret tt).

(** [await f(...)]: an exception of the callee is raised at the call. *)
Definition await {Y} (c : call) : gen Y (resp c) :=
  Ext c (fun r => match r with Ok v => Ret v | Err e => Throw e end).

(** [try: g  except Exception as e: h e] *)
Fixpoint try_except {Y A} (g : gen Y A) (h : exn -> gen Y A) : gen Y A :=
  match g with
  | Ret a => Ret a
  | Throw e => h e
  | Yield y k => Yield y (try_except k h)
  | Ext c k => Ext c (fun r => try_except (k r) h)
  end.

(** [async for y in g: acc = body acc y], with the loop's variables
    threaded as [acc]; what [g] awaits and raises happens in the
    consumer, between the iterations. *)
Fixpoint async_for {Y Z S} (g : gen Y unit) (acc : S)
         (body : S -> Y -> gen Z S) : gen Z S :=
  match g with
  | Ret _ => Ret acc
  | Throw e => Throw e
  | Yield y k => acc' <- body acc y ;; async_for k acc' body
  | Ext c k => Ext c (fun r => async_for (k r) acc body)
  end.

(** ** Running a generator against its environment *)

(** What an observer of a run sees, in order: the values yielded and
    the calls made, each with its answer. *)
Inductive obs (Y : Type) : Type :=
| Emitted (y : Y)
| Called (c : call) (r : result (resp c)).
Arguments Emitted {Y} y.
Arguments Called {Y} c r.

(** How a generator ends: exhausted, or by an exception that leaves it. *)
Inductive outcome (A : Type) : Type :=
| Done (a : A)
| Raised (e : exn).
Arguments Done {A} a.
Arguments Raised {A} e.

(** The world a request runs in: the records of the memory store and
    the state [O] of everything else outside the process. *)
Record World (O : Type) := {
  store : list MemoryRecord;
  outside : O
}.
Arguments store {O} w.
Arguments outside {O} w.

Section Run.
Context {O : Type}.

(** The collaborators, as a whole: the answer to each call, which may
      be an exception and may depend on everything that happened. *)
Variable oracle : forall c : call, O -> result (resp c) * O.

(** Modelled from the spec: the memory store's [append] behind
      [mem0_service.add_memory] (services/tools_service.py is not part
      of the sources at hand).  A call that returns has appended one
      record for the owner; a call that raises has appended nothing. *)
Definition add_memory (uid msg : pystr) (meta : pydict)
             (r : result unit) (st : list MemoryRecord) : list MemoryRecord :=
    match r with
    | Ok _ => st ++ [{| owner := uid; mr_message := msg; metadata := meta |}]
    | Err _ => st
    end.

Definition handle (c : call) (w : World O) : result (resp c) * World O :=
    let '(r, o) := oracle c (outside w) in
    let st :=
      match c as c0 return result (resp c0) -> list MemoryRecord with
      | AddMemory uid msg meta => fun r => add_memory uid msg meta r (store w)
      | _ => fun _ => store w
      end r in
    (r, {| store := st; outside := o |}).

Fixpoint run {Y A} (g : gen Y A) (w : World O)
    : list (obs Y) * outcome A * World O :=
    match g with
    | Ret a => ([], Done a, w)
    | Throw e => ([], Raised e, w)
    | Yield y k =>
        let '(t, res, w') := run k w in (Emitted y :: t, res, w')
    | Ext c k =>
        let '(r, w1) := handle c w in
        let '(t, res, w') := run (k r) w1 in
        (Called c r :: t, res, w')
    end.
End Run.

(** The values yielded along a trace, in emission order. *)
Fixpoint emitted {Y} (t : list (obs Y)) : list Y :=
  match t with
  | [] => []
  | Emitted y :: t' => y :: emitted t'
  | Called _ _ :: t' => emitted t'
  end.

(** The records a trace appended to the memory store. *)
Fixpoint appended {Y} (t : list (obs Y)) : list MemoryRecord :=
  match t with
  | [] => []
  | Called (AddMemory uid msg meta) (Ok _) :: t' =>
      {| owner := uid; mr_message := msg; metadata := meta |} :: appended t'
  | _ :: t' => appended t'
  end.

(** The texts the completion provider returned to [llm.ainvoke]. *)
Fixpoint completions {Y} (t : list (obs Y)) : list pystr :=
  match t with
  | [] => []
  | Called (Ainvoke _) (Ok txt) :: t' => txt :: completions t'
  | _ :: t' => completions t'
  end.

(** ** Domain agents (services/specialized_agents.py) *)

Section Agents.
(** [json.dumps], of the Python standard library. *)
Variable dumps : json -> pystr.

(** [user_memories or {}] *)
Definition or_empty (user_memories : option pydict) : pydict :=
    match user_memories with
    | Some d => d
    | None => []
    end.

Definition ResearchAgent_prompt (message : pystr) (context_str : pystr) (user_memories : option pydict) : pystr :=
  lit "
        You are an **Academic Research Scientist**. 
        Your goal is to provide deep, technical, and scientifically accurate information.
        
        Detailed Instructions:
        1. **Focus on Facts**: Prioritize peer-reviewed papers, official reports, and technical documentation.
        2. **Future Trends**: When asked about future years (e.g., 2025), interpret this as checking for pre-prints (arXiv), upcoming conference schedules (NeurIPS, CVPR), or roadmap announcements.
        3. **No Fluff**: Avoid generic advice. Give specific titles, dates, or theories where possible.
        4. **Scope**: Do NOT provide commercial product reviews, travel tips, or job listings unless explicitly crucial to the research context.

        User Query: "
  ++ message
  ++ lit "
        
        Context Information:
        "
  ++ context_str
  ++ lit "
        
        User Background: "
  ++ dumps (JDict (or_empty user_memories))
  ++ lit "
        
        Provide a structured, academic-grade response capable of citing sources.
        ".

Definition FinanceAgent_prompt (message : pystr) (financial_info : list snippet) (user_memories : option pydict) : pystr :=
  lit "
        You are a financial advisor. Provide financial insights based on the query.
        
        User Query: "
  ++ message
  ++ lit "
        
        Financial Context:
        "
  ++ dumps (json_of_snippets financial_info)
  ++ lit "
        
        User Profile: "
  ++ dumps (JDict (or_empty user_memories))
  ++ lit "
        
        Provide balanced, informative financial guidance. Include disclaimers as appropriate.
        ".

Definition TravelAgent_prompt (message : pystr) (user_memories : option pydict) : pystr :=
  lit "
        You are a travel expert. Help plan the user's trip.
        
        User Query: "
  ++ message
  ++ lit "
        
        User Travel Preferences: "
  ++ dumps (JDict (or_empty user_memories))
  ++ lit "
        
        Provide detailed travel suggestions including flight/hotel tips,
        best times to visit, budget estimates, and local recommendations.
        ".

Definition ShoppingAgent_prompt (message : pystr) (search_results : list snippet) (user_memories : option pydict) : pystr :=
  lit "
        You are a shopping assistant. Recommend products based on the user's needs.
        
        User Query: "
  ++ message
  ++ lit "
        
        Available Products/Options:
        "
  ++ dumps (json_of_snippets search_results)
  ++ lit "
        
        User Preferences: "
  ++ dumps (JDict (or_empty user_memories))
  ++ lit "
        
        Provide thoughtful recommendations with pros/cons and budget considerations.
        ".

Definition JobsAgent_prompt (message : pystr) (jobs : list snippet) (user_memories : option pydict) : pystr :=
  lit "
        You are a **Career & Talent Acquisition Specialist**.
        Your goal is to help users find jobs, improve resumes, and navigate their careers.
        
        Detailed Instructions:
        1. **Scope Enforcer**: If the user's query is NOT about jobs, careers, hiring, or professional development, do not attempt to answer it. State clearly that you are the Jobs Agent and this query seems better suited for another specialist (like Research or Finance).
        2. **Job Search**: When asked for jobs, look for specific roles, locations, and requirements.
        3. **Career Advice**: Provide actionable tips for interviews, networking, and salary negotiation.
        4. **Anti-Hallucination**: Do not invent job postings. Use the provided search results.

        User Query: "
  ++ message
  ++ lit "
        
        Available Jobs:
        "
  ++ dumps (json_of_snippets jobs)
  ++ lit "
        
        User Profile: "
  ++ dumps (JDict (or_empty user_memories))
  ++ lit "
        
        Provide professional career guidance or job listings.
        ".

Definition RecipesAgent_prompt (message : pystr) (recipes : list snippet) (user_memories : option pydict) : pystr :=
  lit "
        You are a culinary expert and recipe guide.
        
        User Query: "
  ++ message
  ++ lit "
        
        Recipe Options:
        "
  ++ dumps (json_of_snippets recipes)
  ++ lit "
        
        User Dietary Preferences: "
  ++ dumps (JDict (or_empty user_memories))
  ++ lit "
        
        Provide detailed recipe recommendations with:
        - Ingredients and quantities
        - Step-by-step instructions
        - Cooking time and difficulty level
        - Nutritional information if available
        - Dietary notes and substitutions
        ".


(** [BaseSpecializedAgent._get_user_context] *)
Definition get_user_context {Y} (uid : pystr) : gen Y pydict :=
  memories <- await (RetrieveMemories uid None) ;;
  Ret [(lit "user_id", JStr uid); (lit "memories", JList memories)].

(** The [context_str] of [ResearchAgent.process]. *)
Definition research_context_str (news_results doc_results : list snippet) : pystr :=
  let context_str := lit "Recent News Results:" ++ nl in
  let context_str :=
    fold_left (fun acc result =>
                 acc ++ lit "- " ++ snippet_get (lit "title") (lit "N/A") result
                     ++ lit ": " ++ snippet_get (lit "snippet") [] result ++ nl)
              news_results context_str in
  let context_str := context_str ++ nl ++ lit "Relevant Documents:" ++ nl in
  fold_left (fun acc doc =>
               acc ++ lit "- " ++ slice_to 200 (snippet_get (lit "document") [] doc)
                   ++ lit "..." ++ nl)
            (firstn 3 doc_results) context_str.

Definition ResearchAgent_process (message uid : pystr)
           (user_memories : option pydict) : gen pystr unit :=
  yield ([128269%N] ++ lit " Searching for research information..." ++ nl) ;;
  context <- get_user_context uid ;;
  news_results <- await (SearchNews message 3) ;;
  doc_results <- await (QueryDocuments message) ;;
  let context_str := research_context_str news_results doc_results in
  let prompt := ResearchAgent_prompt message context_str user_memories in
  response <- await (Ainvoke prompt) ;;
  yield response ;;
  await (AddMemory uid (lit "Researched: " ++ slice_to 100 message)
           [(lit "domain", JStr (lit "research")); (lit "query", JStr message)]).

Definition FinanceAgent_process (message uid : pystr)
           (user_memories : option pydict) : gen pystr unit :=
  yield ([128176%N] ++ lit " Analyzing financial information..." ++ nl) ;;
  context <- get_user_context uid ;;
  financial_info <- await (SearchNews (message ++ lit " financial news") 5) ;;
  let prompt := FinanceAgent_prompt message financial_info user_memories in
  response <- await (Ainvoke prompt) ;;
  yield response ;;
  await (AddMemory uid (lit "Financial Query: " ++ slice_to 100 message)
           [(lit "domain", JStr (lit "finance")); (lit "query", JStr message)]).

Definition TravelAgent_process (message uid : pystr)
           (user_memories : option pydict) : gen pystr unit :=
  yield ([9992%N; 65039%N] ++ lit " Searching for travel options..." ++ nl) ;;
  context <- get_user_context uid ;;
  let prompt := TravelAgent_prompt message user_memories in
  response <- await (Ainvoke prompt) ;;
  yield response ;;
  await (AddMemory uid (lit "Travel Interest: " ++ slice_to 100 message)
           [(lit "domain", JStr (lit "travel")); (lit "query", JStr message)]).

Definition ShoppingAgent_process (message uid : pystr)
           (user_memories : option pydict) : gen pystr unit :=
  yield ([128717%N; 65039%N] ++ lit " Finding product recommendations..." ++ nl) ;;
  context <- get_user_context uid ;;
  search_results <- await (SearchNews (message ++ lit " products reviews") 5) ;;
  let prompt := ShoppingAgent_prompt message search_results user_memories in
  response <- await (Ainvoke prompt) ;;
  yield response ;;
  await (AddMemory uid (lit "Shopping Interest: " ++ slice_to 100 message)
           [(lit "domain", JStr (lit "shopping")); (lit "query", JStr message)]).

Definition JobsAgent_process (message uid : pystr)
           (user_memories : option pydict) : gen pystr unit :=
  yield ([128188%N] ++ lit " Searching for job opportunities..." ++ nl) ;;
  context <- get_user_context uid ;;
  jobs <- await (SearchJobs message 5) ;;
  let prompt := JobsAgent_prompt message jobs user_memories in
  response <- await (Ainvoke prompt) ;;
  yield response ;;
  await (AddMemory uid (lit "Job Search: " ++ slice_to 100 message)
           [(lit "domain", JStr (lit "jobs")); (lit "query", JStr message)]).

Definition RecipesAgent_process (message uid : pystr)
           (user_memories : option pydict) : gen pystr unit :=
  yield ([128104%N; 127859%N] ++ lit " Finding recipes for you..." ++ nl) ;;
  context <- get_user_context uid ;;
  recipes <- await (SearchRecipes message 5) ;;
  let prompt := RecipesAgent_prompt message recipes user_memories in
  response <- await (Ainvoke prompt) ;;
  yield response ;;
  await (AddMemory uid (lit "Recipe Interest: " ++ slice_to 100 message)
           [(lit "domain", JStr (lit "recipes")); (lit "query", JStr message)]).

(** The six global agent instances. *)
Inductive agent : Type :=
| research_agent
| finance_agent
| travel_agent
| shopping_agent
| jobs_agent
| recipes_agent.

(** [self.domain], as each constructor sets it. *)
Definition domain (a : agent) : pystr :=
  match a with
  | research_agent => lit "research"
  | finance_agent => lit "finance"
  | travel_agent => lit "travel"
  | shopping_agent => lit "shopping"
  | jobs_agent => lit "jobs"
  | recipes_agent => lit "recipes"
  end.

(** [agent.process(...)]: dispatch on the instance's class. *)
Definition process (a : agent) : pystr -> pystr -> option pydict -> gen pystr unit :=
  match a with
  | research_agent => ResearchAgent_process
  | finance_agent => FinanceAgent_process
  | travel_agent => TravelAgent_process
  | shopping_agent => ShoppingAgent_process
  | jobs_agent => JobsAgent_process
  | recipes_agent => RecipesAgent_process
  end.

Definition AGENT_REGISTRY : list (pystr * agent) :=
  [(lit "research", research_agent);
   (lit "finance", finance_agent);
   (lit "travel", travel_agent);
   (lit "shopping", shopping_agent);
   (lit "jobs", jobs_agent);
   (lit "recipes", recipes_agent)].

(** [AGENT_REGISTRY.get(name)] *)
Fixpoint registry_get (name : pystr) (reg : list (pystr * agent)) : option agent :=
  match reg with
  | [] => None
  | (k, a) :: reg' => if pystr_eqb name k then Some a else registry_get name reg'
  end.

(** ** The multi-agent stream endpoint (backend.py) *)

(** An event is kept as the object handed to [json.dumps]; on the wire
    it is [sse_frame] of it.  The object of a relayed chunk: *)
Definition content_event (chunk recommended mode : pystr) : pydict :=
  [(lit "content", JStr chunk);
   (lit "agent", JStr recommended);
   (lit "mode", JStr mode)].

(** The loop body of [event_generator]: accumulate the chunk, then
    yield the event built from it. *)
Definition relay (recommended : pystr) (payload : MultiModalRequest)
           (full_response chunk : pystr) : gen pydict pystr :=
  let full_response := full_response ++ chunk in
  yield (content_event chunk recommended (mode payload)) ;;
  Ret full_response.

(** The object of the [except] branch. *)
Definition error_event (e : exn) : pydict :=
  [(lit "error", JStr e); (lit "content", JStr (lit "Error: " ++ e))].

Definition sse_frame (obj : pydict) : pystr :=
  lit "data: " ++ dumps (JDict obj) ++ nl ++ nl.

Definition history_of (payload : MultiModalRequest) : list Message :=
  match conversation_history payload with
  | Some h => map (fun m => {| role := role m; content := content m |}) h
  | None => []
  end.

(** [multi_agent_stream.event_generator], under the settings [cfg].
    The agent classes define neither [__bool__] nor [__len__], so
    [if not agent] holds exactly when [get] found nothing. *)
Definition event_generator (cfg : Settings) (payload : MultiModalRequest)
  : gen pydict unit :=
  try_except
    (user_memories <-
       (if mem0_enabled cfg then
          memories <- await (RetrieveMemories (user_id payload) (Some 5)) ;;
          Ret (Some [(lit "memories", JList memories);
                     (lit "user_id", JStr (user_id payload))])
        else Ret None) ;;
     routing_decision <-
       await (Route (message payload) (user_id payload)
                    (history_of payload) user_memories) ;;
     let recommended := recommended_agent routing_decision in
     match registry_get recommended AGENT_REGISTRY with
     | None => Throw (lit "Unknown agent: " ++ recommended)
     | Some a =>
         full_response <-
           async_for (process a (message payload) (user_id payload) user_memories)
                     [] (relay recommended payload) ;;
         if mem0_enabled cfg then
           await (AddMemory (user_id payload)
                    (lit "Used " ++ recommended ++ lit " agent: "
                         ++ slice_to 100 (message payload))
                    [(lit "agent", JStr recommended);
                     (lit "mode", JStr (mode payload));
                     (lit "response_length",
                      JNum (Z.of_nat (len full_response)))])
         else Ret tt
     end)
    (fun e => yield (error_event e)).

End Agents.

(** ** The completion service (services/llm_service.py) *)

(** [l and l[0].content]: the first choice's text, when there is a
    first choice and its text is neither [None] nor empty. *)
Definition first_content (l : list (option pystr)) : option pystr :=
  match l with
  | Some c :: _ => if str_truthy c then Some c else None
  | _ => None
  end.

(** [async for chunk in stream: if ...: yield ...], then the exception
    the iterator raises, if it breaks. *)
Fixpoint iterate_chunks (chunks : list StreamChunk) (failure : option exn)
  : gen pystr unit :=
  match chunks with
  | [] => match failure with
          | Some e => Throw e
          | None => Ret tt
          end
  | chunk :: chunks' =>
      match first_content (chunk_choices chunk) with
      | Some c => yield c ;; iterate_chunks chunks' failure
      | None => iterate_chunks chunks' failure
      end
  end.

Definition create_args (cfg : Settings) (openai_messages : list Message)
  : CreateArgs :=
  {| ca_model := primary_llm_model cfg;
     ca_messages := openai_messages;
     ca_temperature := (8 # 10)%Q;
     ca_max_tokens := 2048%Z |}.

(** [LLMService.stream_chat_completion] *)
Definition stream_chat_completion (cfg : Settings) (messages : list Message)
           (system_prompt : pystr) : gen pystr unit :=
  let openai_messages :=
    {| role := lit "system"; content := system_prompt |} :: messages in
  try_except
    (stream <- await (CreateStream (create_args cfg openai_messages)) ;;
     iterate_chunks (stream_chunks stream) (stream_failure stream))
    (fun e =>
       response <- await (CreateCompletion (create_args cfg openai_messages)) ;;
       match first_content (choices response) with
       | Some c => yield c
       | None => Ret tt
       end).

(** ** The legacy endpoint [/llm/stream] (backend.py) *)

Inductive http_response : Type :=
| HTTPException (status_code : nat) (detail : pystr)
| StreamingResponse (body : gen pydict unit).

(** [for m in ms: if m.role == "user": user_message = m.content; break] *)
Fixpoint first_user (ms : list Message) : option pystr :=
  match ms with
  | [] => None
  | m :: ms' =>
      if pystr_eqb (role m) (lit "user") then Some (content m)
      else first_user ms'
  end.

Definition legacy_system_prompt : pystr :=
  lit "You are a helpful AI assistant. When provided with relevant information or context below, 
use it to answer the user's question accurately and completely. Always use the information 
provided to give thorough, detailed answers. Be conversational and friendly while being informative.
If the context contains the answer, state it clearly and add relevant details from the context.".

(** The inner [event_generator] of [llm_stream]; the loop's variables
    are [(full_response, chunk_count)]. *)
Definition llm_event_generator (cfg : Settings) (messages : list Message)
  : gen pydict unit :=
  let formatted_messages :=
    map (fun m => {| role := role m; content := content m |}) messages in
  try_except
    (async_for (stream_chat_completion cfg formatted_messages legacy_system_prompt)
               ([], 0)
               (fun acc chunk =>
                  if negb (str_truthy chunk) then Ret acc
                  else
                    let chunk_count := snd acc + 1 in
                    let full_response := fst acc ++ chunk in
                    yield [(lit "content", JStr chunk)] ;;
                    Ret (full_response, chunk_count)) ;;
     Ret tt)
    (fun e => yield [(lit "content", JStr (lit "Error: " ++ e))]).

(** [llm_stream] *)
Definition llm_stream (cfg : Settings) (messages : list Message)
  : http_response :=
  if match messages with [] => true | _ => false end then
    HTTPException 400 (lit "No messages provided")
  else
    let user_message := first_user (rev messages) in
    match user_message with
    | None => HTTPException 400 (lit "No user message found")
    | Some c =>
        if negb (str_truthy c) then
          HTTPException 400 (lit "No user message found")
        else StreamingResponse (llm_event_generator cfg messages)
    end.

(** * Specification vocabulary *)

(** [always g P]: whatever the collaborators answer, the trace and the
    outcome of [g] satisfy [P]. *)
Fixpoint always {Y A} (g : gen Y A)
         (P : list (obs Y) -> outcome A -> Prop) : Prop :=
  match g with
  | Ret a => P [] (Done a)
  | Throw e => P [] (Raised e)
  | Yield y k => always k (fun t res => P (Emitted y :: t) res)
  | Ext c k =>
      forall r : result (resp c),
        always (k r) (fun t res => P (Called c r :: t) res)
  end.

Definition trace_of {Y A O} (x : list (obs Y) * outcome A * World O) :=
  fst (fst x).
Definition outcome_of {Y A O} (x : list (obs Y) * outcome A * World O) :=
  snd (fst x).
Definition world_of {Y A O} (x : list (obs Y) * outcome A * World O) :=
  snd x.


Arguments lit : simpl never.

(** ** Reading events and traces *)

(** An error fragment carries an [error] field. *)
Definition is_error_event (ev : pydict) : bool :=
  match dict_get (lit "error") ev with
  | Some _ => true
  | None => false
  end.

(** The [content] value of a fragment. *)
Definition content_of (ev : pydict) : pystr :=
  match dict_get (lit "content") ev with
  | Some (JStr s) => s
  | _ => []
  end.

(** The concatenation of the [content] values along a trace. *)
Definition streamed_text (t : list (obs pydict)) : pystr :=
  List.concat (map content_of (emitted t)).

(** A fragment's [agent] field, when it has one, names a key of the
    registry. *)
Definition agent_field_known (ev : pydict) : bool :=
  match dict_get (lit "agent") ev with
  | Some (JStr n) => existsb (pystr_eqb n) (map fst AGENT_REGISTRY)
  | Some _ => false
  | None => true
  end.

(** The exceptions the completion provider raised to [llm.ainvoke]. *)
Fixpoint completion_errors {Y} (t : list (obs Y)) : list exn :=
  match t with
  | [] => []
  | Called (Ainvoke _) (Err e) :: t' => e :: completion_errors t'
  | _ :: t' => completion_errors t'
  end.

(** The exceptions the tool providers raised to the search calls. *)
Fixpoint tool_errors {Y} (t : list (obs Y)) : list exn :=
  match t with
  | [] => []
  | Called (SearchNews _ _) (Err e) :: t'
  | Called (SearchJobs _ _) (Err e) :: t'
  | Called (SearchRecipes _ _) (Err e) :: t'
  | Called (QueryDocuments _) (Err e) :: t' => e :: tool_errors t'
  | _ :: t' => tool_errors t'
  end.

(** The exceptions the memory store raised to the orchestrator's read,
    the one call to [retrieve_memories] that passes a [limit]. *)
Fixpoint memory_read_errors {Y} (t : list (obs Y)) : list exn :=
  match t with
  | [] => []
  | Called (RetrieveMemories _ (Some _)) (Err e) :: t' =>
      e :: memory_read_errors t'
  | _ :: t' => memory_read_errors t'
  end.

(** The domain identifiers the router returned. *)
Fixpoint routed_to {Y} (t : list (obs Y)) : list pystr :=
  match t with
  | [] => []
  | Called (Route _ _ _ _) (Ok d) :: t' => recommended_agent d :: routed_to t'
  | _ :: t' => routed_to t'
  end.

(** The number of times the router was invoked. *)
Fixpoint route_calls {Y} (t : list (obs Y)) : nat :=
  match t with
  | [] => 0
  | Called (Route _ _ _ _) _ :: t' => S (route_calls t')
  | _ :: t' => route_calls t'
  end.

(** The first fragment of each agent, a fixed status line. *)
Definition status_line (a : agent) : pystr :=
  match a with
  | research_agent =>
      [128269%N] ++ lit " Searching for research information..." ++ nl
  | finance_agent =>
      [128176%N] ++ lit " Analyzing financial information..." ++ nl
  | travel_agent =>
      [9992%N; 65039%N] ++ lit " Searching for travel options..." ++ nl
  | shopping_agent =>
      [128717%N; 65039%N] ++ lit " Finding product recommendations..." ++ nl
  | jobs_agent =>
      [128188%N] ++ lit " Searching for job opportunities..." ++ nl
  | recipes_agent =>
      [128104%N; 127859%N] ++ lit " Finding recipes for you..." ++ nl
  end.

(** The label each agent puts before the truncated query in its record. *)
Definition memory_label (a : agent) : pystr :=
  match a with
  | research_agent => lit "Researched: "
  | finance_agent => lit "Financial Query: "
  | travel_agent => lit "Travel Interest: "
  | shopping_agent => lit "Shopping Interest: "
  | jobs_agent => lit "Job Search: "
  | recipes_agent => lit "Recipe Interest: "
  end.

(** The record an agent appends when its stream ends normally. *)
Definition agent_record (a : agent) (message uid : pystr) : MemoryRecord :=
  {| owner := uid;
     mr_message := memory_label a ++ slice_to 100 message;
     metadata := [(lit "domain", JStr (domain a)); (lit "query", JStr message)] |}.

(** The record the orchestrator appends after the stream. *)
Definition orchestrator_record (recommended : pystr) (payload : MultiModalRequest)
           (full_response : pystr) : MemoryRecord :=
  {| owner := user_id payload;
     mr_message := lit "Used " ++ recommended ++ lit " agent: "
                       ++ slice_to 100 (message payload);
     metadata := [(lit "agent", JStr recommended);
                  (lit "mode", JStr (mode payload));
                  (lit "response_length", JNum (Z.of_nat (len full_response)))] |}.

(** Unfold a generator of the back end step by step, splitting on the
    answer of every call it makes. *)
Ltac explore :=
  repeat first
    [ progress cbn [always bind try_except async_for await yield relay process
                    ResearchAgent_process FinanceAgent_process TravelAgent_process
                    ShoppingAgent_process JobsAgent_process RecipesAgent_process
                    get_user_context emitted appended completions
                    completion_errors tool_errors routed_to route_calls
                    memory_read_errors]
    | match goal with
      | |- forall r : result _, _ => intros [? | ?]
      | |- context [registry_get ?n AGENT_REGISTRY] =>
          let E := fresh "Hreg" in
          destruct (registry_get n AGENT_REGISTRY) as [[] | ] eqn:E
      end ].

(** The content of the last message of role [user] in a list. *)
Fixpoint last_user (ms : list Message) : option pystr :=
  match ms with
  | [] => None
  | m :: ms' =>
      match last_user ms' with
      | Some c => Some c
      | None =>
          if pystr_eqb (role m) (lit "user") then Some (content m) else None
      end
  end.

(** The messages handed to a completion call. *)
Definition with_system (system_prompt : pystr) (messages : list Message)
  : list Message :=
  {| role := lit "system"; content := system_prompt |} :: messages.

(** ** Sample environments *)

(** A serializer for the examples: the layout of [json.dumps], strings
    quoted as they are. *)
Fixpoint sample_dumps (j : json) : pystr :=
  match j with
  | JNull => lit "null"
  | JNum z => lit (NilZero.string_of_int (Z.to_int z))
  | JStr s => [34%N] ++ s ++ [34%N]
  | JList l =>
      lit "["
      ++ (fix items (l : list json) : pystr :=
            match l with
            | [] => []
            | [x] => sample_dumps x
            | x :: l' => sample_dumps x ++ lit ", " ++ items l'
            end) l
      ++ lit "]"
  | JDict d =>
      lit "{"
      ++ (fix fields (d : list (pystr * json)) : pystr :=
            match d with
            | [] => []
            | [(k, v)] => [34%N] ++ k ++ [34%N] ++ lit ": " ++ sample_dumps v
            | (k, v) :: d' =>
                [34%N] ++ k ++ [34%N] ++ lit ": " ++ sample_dumps v
                ++ lit ", " ++ fields d'
            end) d
      ++ lit "}"
  end.

(** What a healthy collaborator answers: no memories, no snippets, the
    router's choice [routed], the completion text [answer]. *)
Definition healthy_answer (routed answer : pystr) (c : call) : resp c :=
  match c as c0 return resp c0 with
  | RetrieveMemories _ _ => []
  | AddMemory _ _ _ => tt
  | Route _ _ _ _ =>
      {| recommended_agent := routed;
         classified_domain := routed;
         context := JDict [] |}
  | SearchNews _ _ => []
  | SearchJobs _ _ => []
  | SearchRecipes _ _ => []
  | QueryDocuments _ => []
  | Ainvoke _ => answer
  | CreateStream _ =>
      {| stream_chunks := [{| chunk_choices := [Some answer] |}];
         stream_failure := None |}
  | CreateCompletion _ => {| choices := [Some answer] |}
  end.

(** An environment without state: the calls [fault] selects raise, the
    others get the healthy answer. *)
Definition scripted (fault : call -> option exn) (routed answer : pystr)
  : forall c : call, unit -> result (resp c) * unit :=
  fun c o =>
    match fault c with
    | Some e => (Err e, o)
    | None => (Ok (healthy_answer routed answer c), o)
    end.

Definition no_fault (c : call) : option exn := None.

Definition memory_read_down (c : call) : option exn :=
  match c with
  | RetrieveMemories _ (Some _) => Some (lit "mem0 unavailable")
  | _ => None
  end.

Definition jobs_search_down (c : call) : option exn :=
  match c with
  | SearchJobs _ _ => Some (lit "serpapi timeout")
  | _ => None
  end.

Definition completion_down (c : call) : option exn :=
  match c with
  | Ainvoke _ => Some (lit "rate limit")
  | _ => None
  end.

Definition streaming_down (c : call) : option exn :=
  match c with
  | CreateStream _ => Some (lit "stream refused")
  | _ => None
  end.

Definition empty_world : World unit := {| store := []; outside := tt |}.

(** A request [hi] of user [u1] in text mode. *)
Definition sample_request : MultiModalRequest :=
  {| user_id := lit "u1";
     session_id := lit "session-u1";
     message := lit "hi";
     mode := lit "text";
     conversation_history := None |}.

(** A conversation whose last user message is [again]. *)
Definition sample_messages : list Message :=
  [{| role := lit "user"; content := lit "hi" |};
   {| role := lit "assistant"; content := lit "hello" |};
   {| role := lit "user"; content := lit "again" |}].

(** A conversation whose only user message is empty. *)
Definition blank_messages : list Message :=
  [{| role := lit "user"; content := [] |}].


(** The sample request against healthy collaborators, the router
    choosing [travel] and the completion being [Go.]. *)
Definition healthy_run :=
  run (scripted no_fault (lit "travel") (lit "Go."))
      (event_generator sample_dumps settings sample_request) empty_world.

(** The same, the memory store failing the orchestrator's read. *)
Definition memory_down_run :=
  run (scripted memory_read_down (lit "travel") (lit "Go."))
      (event_generator sample_dumps settings sample_request) empty_world.

(** The same, the completion provider failing. *)
Definition completion_down_run :=
  run (scripted completion_down (lit "travel") (lit "Go."))
      (event_generator sample_dumps settings sample_request) empty_world.

(** The same, the router answering [weather], which is no domain. *)
Definition unrouted_run :=
  run (scripted no_fault (lit "weather") (lit "Go."))
      (event_generator sample_dumps settings sample_request) empty_world.

(** The jobs agent alone, the job search failing. *)
Definition jobs_agent_run :=
  run (scripted jobs_search_down (lit "jobs") (lit "Go."))
      (process sample_dumps jobs_agent (lit "hi") (lit "u1") None) empty_world.

(** The research agent alone, against healthy collaborators. *)
Definition research_agent_run :=
  run (scripted no_fault (lit "research") (lit "Go."))
      (process sample_dumps research_agent (lit "hi") (lit "u1") None)
      empty_world.

(** [stream_chat_completion] on the sample conversation, the streaming
    call failing. *)
Definition fallback_run :=
  run (scripted streaming_down (lit "research") (lit "Go."))
      (stream_chat_completion settings sample_messages legacy_system_prompt)
      empty_world.

(** * More of the back end *)

Set Warnings "-abstract-large-number".

(** ** Whitespace, as [str.strip] and [str.isspace] see it *)

Definition is_space (c : pychar) : bool :=
  ((9 <=? c) && (c <=? 13) || (28 <=? c) && (c <=? 32)
   || (c =? 133) || (c =? 160) || (c =? 5760)
   || (8192 <=? c) && (c <=? 8202)
   || (c =? 8232) || (c =? 8233) || (c =? 8239) || (c =? 8287)
   || (c =? 12288))%N.

(** [s.lstrip()] *)
Fixpoint lstrip (s : pystr) : pystr :=
  match s with
  | [] => []
  | c :: s' => if is_space c then lstrip s' else s
  end.

(** [s.rstrip()] *)
Definition rstrip (s : pystr) : pystr := rev (lstrip (rev s)).

(** [s.strip()] *)
Definition strip (s : pystr) : pystr := rstrip (lstrip s).

(** [not text or not text.strip()] *)
Definition blank (text : pystr) : bool :=
  negb (str_truthy text) || negb (str_truthy (strip text)).

(** [str(n)] of an integer. *)
Definition str_of_int (n : Z) : pystr :=
  lit (NilZero.string_of_int (Z.to_int n)).

(** ** [LLMService.summarize_text] (services/llm_service.py) *)

Definition summarize_prompt (max_words : Z) (clean_text : pystr) : pystr :=
  lit "Create a concise, conversational summary of the following text. " ++ nl
  ++ lit "The summary should be:" ++ nl
  ++ lit "- About " ++ str_of_int max_words ++ lit " words maximum" ++ nl
  ++ lit "- Written in a natural, spoken style (as if explaining to a friend)" ++ nl
  ++ lit "- Cover the key points and main takeaways" ++ nl
  ++ lit "- Avoid bullet points or lists - use flowing sentences" ++ nl
  ++ lit "- Easy to understand when read aloud" ++ nl
  ++ nl
  ++ lit "Text to summarize:" ++ nl
  ++ lit "---" ++ nl
  ++ clean_text ++ nl
  ++ lit "---" ++ nl
  ++ nl
  ++ lit "Concise spoken summary:".

Definition summarize_system : pystr :=
  lit "You are a helpful assistant that creates clear, concise summaries suitable for audio playback. Keep your summaries conversational and natural-sounding.".

Definition summarize_args (cfg : Settings) (prompt : pystr) : CreateArgs :=
  {| ca_model := primary_llm_model cfg;
     ca_messages := [{| role := lit "system"; content := summarize_system |};
                     {| role := lit "user"; content := prompt |}];
     ca_temperature := (5 # 10)%Q;
     ca_max_tokens := 500%Z |}.

(** [text[:300] + "..."] *)
Definition truncated_text (text : pystr) : pystr :=
  slice_to 300 text ++ lit "...".

(** [summarize_text(text, max_words)], [groq_api] being the key the
    settings hold.  An empty [choices] makes [choices[0]] raise inside
    the [try]. *)
Definition summarize_text (cfg : Settings) (groq_api : pystr)
           (text : pystr) (max_words : Z) : gen Empty_set pystr :=
  if blank text then Ret []
  else if negb (str_truthy groq_api) then Ret (truncated_text text)
  else
    let clean_text := slice_to 12000 (strip text) in
    let prompt := summarize_prompt max_words clean_text in
    try_except
      (response <- await (CreateCompletion (summarize_args cfg prompt)) ;;
       match choices response with
       | [] => Throw (lit "list index out of range")
       | content :: _ =>
           match content with
           | Some c =>
               if str_truthy c && str_truthy (strip c) then Ret (strip c)
               else Ret (truncated_text text)
           | None => Ret (truncated_text text)
           end
       end)
      (fun e => Ret (truncated_text text)).

(** ** The plain endpoints of backend.py *)

(** What an endpoint answers: the value it returns, or the
    [HTTPException] it raises. *)
Inductive reply (A : Type) : Type :=
| Replied (body : A)
| Refused (status_code : nat) (detail : pystr).
Arguments Replied {A} body.
Arguments Refused {A} status_code detail.

Record SessionCreateRequest := {
  sc_user_id : pystr;
  sc_first_name : option pystr;
  sc_last_name : option pystr;
  sc_email : option pystr
}.

(** What [create_session] returns. *)
Record SessionCreated := {
  created_user_id : pystr;
  created_session_id : pystr;
  memory_enabled : bool
}.

(** [f"{x}"] of an optional string: [None] prints as [None]. *)
Definition fmt_optional (x : option pystr) : pystr :=
  match x with
  | Some s => s
  | None => lit "None"
  end.

(** [create_session]; [now] is [str(time.time())] at the call. *)
Definition create_session (cfg : Settings) (now : pystr)
           (body : SessionCreateRequest) : gen Empty_set (reply SessionCreated) :=
  try_except
    (let session_id := lit "session-" ++ sc_user_id body in
     (if mem0_enabled cfg then
        await (AddMemory (sc_user_id body)
                 (lit "User " ++ fmt_optional (sc_first_name body)
                      ++ lit " initialized.")
                 [(lit "session_id", JStr session_id);
                  (lit "created_at", JStr now)])
      else Ret tt) ;;
     Ret (Replied {| created_user_id := sc_user_id body;
                     created_session_id := session_id;
                     memory_enabled := mem0_enabled cfg |}))
    (fun e => Ret (Refused 500 e)).

(** [route_message] *)
Definition route_message (cfg : Settings) (payload : MultiModalRequest)
  : gen Empty_set (reply pydict) :=
  try_except
    (user_memories <-
       (if mem0_enabled cfg then
          memories <- await (RetrieveMemories (user_id payload) (Some 5)) ;;
          Ret (Some [(lit "memories", JList memories);
                     (lit "count", JNum (Z.of_nat (List.length memories)))])
        else Ret None) ;;
     routing_decision <-
       await (Route (message payload) (user_id payload)
                    (history_of payload) user_memories) ;;
     Ret (Replied
            [(lit "status", JStr (lit "routed"));
             (lit "recommended_agent", JStr (recommended_agent routing_decision));
             (lit "classified_domain", JStr (classified_domain routing_decision));
             (lit "context", context routing_decision);
             (lit "session_id", JStr (session_id payload))]))
    (fun e => Ret (Refused 500 e)).

(** ** More readers of traces *)

(** The exceptions the memory store raised to [add_memory]. *)
Fixpoint write_errors {Y} (t : list (obs Y)) : list exn :=
  match t with
  | [] => []
  | Called (AddMemory _ _ _) (Err e) :: t' => e :: write_errors t'
  | _ :: t' => write_errors t'
  end.

(** The exceptions the router raised. *)
Fixpoint route_errors {Y} (t : list (obs Y)) : list exn :=
  match t with
  | [] => []
  | Called (Route _ _ _ _) (Err e) :: t' => e :: route_errors t'
  | _ :: t' => route_errors t'
  end.

(** What the router was asked: message, user, history and memory
    context of each call. *)
Fixpoint route_requests {Y} (t : list (obs Y))
  : list (pystr * pystr * list Message * option pydict) :=
  match t with
  | [] => []
  | Called (Route msg uid history um) _ :: t' =>
      (msg, uid, history, um) :: route_requests t'
  | _ :: t' => route_requests t'
  end.

(** What the orchestrator's reads of the memory store returned. *)
Fixpoint memory_reads {Y} (t : list (obs Y)) : list (list json) :=
  match t with
  | [] => []
  | Called (RetrieveMemories _ (Some _)) (Ok m) :: t' => m :: memory_reads t'
  | _ :: t' => memory_reads t'
  end.

(** The number of calls to [llm.ainvoke]. *)
Fixpoint completion_calls {Y} (t : list (obs Y)) : nat :=
  match t with
  | [] => 0
  | Called (Ainvoke _) _ :: t' => S (completion_calls t')
  | _ :: t' => completion_calls t'
  end.

(** The [create] calls of the completion API: whether each streams,
    and its arguments. *)
Fixpoint create_calls {Y} (t : list (obs Y)) : list (bool * CreateArgs) :=
  match t with
  | [] => []
  | Called (CreateStream args) _ :: t' => (true, args) :: create_calls t'
  | Called (CreateCompletion args) _ :: t' => (false, args) :: create_calls t'
  | _ :: t' => create_calls t'
  end.

(** The number of calls of any kind. *)
Fixpoint calls {Y} (t : list (obs Y)) : nat :=
  match t with
  | [] => 0
  | Called _ _ :: t' => S (calls t')
  | Emitted _ :: t' => calls t'
  end.

(** [explore], knowing the readers above. *)
Ltac explore_more :=
  repeat first
    [ progress cbn [always bind try_except async_for await yield relay process
                    ResearchAgent_process FinanceAgent_process TravelAgent_process
                    ShoppingAgent_process JobsAgent_process RecipesAgent_process
                    get_user_context emitted appended completions
                    completion_errors tool_errors routed_to route_calls
                    memory_read_errors write_errors route_errors route_requests
                    memory_reads completion_calls create_calls calls]
    | match goal with
      | |- forall r : result _, _ => intros [? | ?]
      | |- context [registry_get ?n AGENT_REGISTRY] =>
          let E := fresh "Hreg" in
          destruct (registry_get n AGENT_REGISTRY) as [[] | ] eqn:E
      end ].

(** ** More sample environments *)

Definition router_down (c : call) : option exn :=
  match c with
  | Route _ _ _ _ => Some (lit "classifier unreachable")
  | _ => None
  end.


(** The settings, the memory store switched off. *)
Definition settings_without_memory : Settings :=
  {| mem0_enabled := false;
     primary_llm_model := primary_llm_model settings;
     agent_domains := agent_domains settings |}.

Definition router_down_run :=
  run (scripted router_down (lit "travel") (lit "Go."))
      (event_generator sample_dumps settings sample_request) empty_world.


Definition memoryless_run :=
  run (scripted no_fault (lit "travel") (lit "Go."))
      (event_generator sample_dumps settings_without_memory sample_request)
      empty_world.

(** ** Reading the completion API's answers *)

(** What a chunk contributes to the stream of fragments. *)
Definition chunk_text (chunk : StreamChunk) : list pystr :=
  match first_content (chunk_choices chunk) with
  | Some c => [c]
  | None => []
  end.

(** The fragments a streamed completion carries. *)
Definition stream_texts (s : CompletionStream) : list pystr :=
  flat_map chunk_text (stream_chunks s).

(** The fragment a complete response carries, if any. *)
Definition completion_texts (r : ChatCompletion) : list pystr :=
  match first_content (choices r) with
  | Some c => [c]
  | None => []
  end.

(** The loop body of the legacy [event_generator]. *)
Definition legacy_relay (acc : pystr * nat) (chunk : pystr)
  : gen pydict (pystr * nat) :=
  if negb (str_truthy chunk) then Ret acc
  else
    let chunk_count := snd acc + 1 in
    let full_response := fst acc ++ chunk in
    yield [(lit "content", JStr chunk)] ;;
    Ret (full_response, chunk_count).

(** The object of a legacy fragment. *)
Definition legacy_event (c : pystr) : pydict := [(lit "content", JStr c)].


(** The streaming call fails, and so does the retry. *)
Definition completion_api_down (c : call) : option exn :=
  match c with
  | CreateStream _ => Some (lit "stream refused")
  | CreateCompletion _ => Some (lit "service unavailable")
  | _ => None
  end.

(** A stream of two fragments that breaks after them. *)
Definition broken_stream : CompletionStream :=
  {| stream_chunks := [{| chunk_choices := [Some (lit "Hel")] |};
                       {| chunk_choices := [] |};
                       {| chunk_choices := [Some []] |};
                       {| chunk_choices := [Some (lit "lo")] |}];
     stream_failure := Some (lit "connection reset") |}.

(** The same stream, ending normally. *)
Definition whole_stream : CompletionStream :=
  {| stream_chunks := stream_chunks broken_stream;
     stream_failure := None |}.

(** An environment whose streaming call returns [s] and whose other
    calls are healthy. *)
Definition streaming (s : CompletionStream) (answer : pystr)
  : forall c : call, unit -> result (resp c) * unit :=
  fun c o =>
    match c as c0 return result (resp c0) * unit with
    | CreateStream _ => (Ok s, o)
    | c0 => (Ok (healthy_answer (lit "research") answer c0), o)
    end.

(** The loop variables of the legacy [event_generator] after the
    fragments [l]. *)
Definition legacy_accumulate (acc : pystr * nat) (l : list pystr)
  : pystr * nat :=
  fold_left (fun acc c => (fst acc ++ c, snd acc + 1)) l acc.

(** The [except] branch of the legacy [event_generator]. *)
Definition legacy_error (e : exn) : gen pydict unit :=
  yield [(lit "content", JStr (lit "Error: " ++ e))].

Definition legacy_failed_run :=
  run (scripted completion_api_down (lit "research") (lit "Go."))
      (llm_event_generator settings sample_messages) empty_world.

Definition broken_stream_run :=
  run (streaming broken_stream (lit "Hello"))
      (stream_chat_completion settings sample_messages legacy_system_prompt)
      empty_world.

Definition whole_stream_run :=
  run (streaming whole_stream (lit "Hello"))
      (stream_chat_completion settings sample_messages legacy_system_prompt)
      empty_world.

(** ** The voice service (services/voice_service.py) *)

(** The service's collaborators (Groq's transcription, OpenAI's speech,
    gTTS) are taken as the answers they give; what the service prints
    is left out. *)
Definition pybytes := list Byte.byte.

(** [if audio_bytes and len(audio_bytes) > 1000] *)
Definition real_audio (audio_bytes : pybytes) : bool :=
  match audio_bytes with
  | [] => false
  | _ :: _ => 1000 <? List.length audio_bytes
  end.

Record gtts_config := { lang : pystr; slow : bool; tld : pystr }.

Definition gtts_configs : list gtts_config :=
  [{| lang := lit "en"; slow := false; tld := lit "com" |};
   {| lang := lit "en"; slow := false; tld := lit "co.uk" |};
   {| lang := lit "en"; slow := true; tld := lit "com" |}].

(** The loop of [_gtts_fallback] over the configurations; [synth] is
    [gTTS(text=text, **config)] written to a buffer. *)
Fixpoint gtts_loop (synth : gtts_config -> result pybytes)
         (configs : list gtts_config) : option pybytes :=
  match configs with
  | [] => None
  | config :: configs' =>
      match synth config with
      | Ok audio_bytes =>
          if real_audio audio_bytes then Some audio_bytes
          else gtts_loop synth configs'
      | Err _ => gtts_loop synth configs'
      end
  end.

(** [VoiceService._gtts_fallback]; [gtts_import] is the import of the
    [gtts] module inside the [try]. *)
Definition gtts_fallback (gtts_import : result unit)
           (synth : pystr -> gtts_config -> result pybytes)
           (text : pystr) : option pybytes :=
  match gtts_import with
  | Err _ => None
  | Ok _ => gtts_loop (synth text) gtts_configs
  end.

(** [VoiceService.text_to_speech]; [openai_client] tells whether the
    OpenAI key is configured and [speech] is [audio.speech.create]. *)
Definition text_to_speech (openai_client : bool)
           (speech : pystr -> pystr -> result pybytes)
           (gtts_import : result unit)
           (synth : pystr -> gtts_config -> result pybytes)
           (text voice : pystr) : option pybytes :=
  if blank text then None
  else
    match (if openai_client then
             match speech text voice with
             | Ok audio_bytes => Some audio_bytes
             | Err _ => None
             end
           else None) with
    | Some audio_bytes => Some audio_bytes
    | None => gtts_fallback gtts_import synth text
    end.


(** ** The chat client (app_v2.py) *)

(** The body of the loop of [stream_response] on the object of one
    [data: ] line: the frame of an object is taken to be read back, by
    [json.loads], as that object.  The state is [stream_state]'s text
    and agent; [None] stands for the [TypeError] of adding a value that
    is no string to the text. *)
Definition client_step (state : pystr * json) (data : pydict)
  : option (pystr * json) :=
  match dict_get (lit "content") data with
  | None => Some state
  | Some (JStr c) =>
      Some (fst state ++ c,
            match dict_get (lit "agent") data with
            | Some agent_name => agent_name
            | None => snd state
            end)
  | Some _ => None
  end.

(** [stream_response] over the objects received, from the initial
    [{"text": "", "agent": "unknown"}]. *)
Fixpoint client_loop (state : pystr * json) (events : list pydict)
  : option (pystr * json) :=
  match events with
  | [] => Some state
  | data :: events' =>
      match client_step state data with
      | Some state' => client_loop state' events'
      | None => None
      end
  end.

Definition stream_response (events : list pydict) : option (pystr * json) :=
  client_loop ([], JStr (lit "unknown")) events.

(** ** Sample answers for the voice service *)

Definition small_audio : pybytes := repeat Byte.x00 1000.
Definition large_audio : pybytes := repeat Byte.x01 1001.

(** gTTS answers too little on [com] and enough on [co.uk]. *)
Definition sample_synth (text : pystr) (config : gtts_config)
  : result pybytes :=
  if pystr_eqb (tld config) (lit "co.uk") then Ok large_audio
  else Ok small_audio.

Definition speech_down (text voice : pystr) : result pybytes :=
  Err (lit "quota exceeded").

Definition speech_small (text voice : pystr) : result pybytes :=
  Ok small_audio.

(** The session request of user [u1]. *)
Definition sample_session : SessionCreateRequest :=
  {| sc_user_id := lit "u1";
     sc_first_name := Some (lit "Demo");
     sc_last_name := None;
     sc_email := None |}.



(** * Facts about runs and events *)

Section RunFacts.
Context {O : Type}.
Variable oracle : forall c : call, O -> result (resp c) * O.

Lemma run_always {Y A} (g : gen Y A) :
  forall (P : list (obs Y) -> outcome A -> Prop) (w : World O),
    always g P ->
    P (trace_of (run oracle g w)) (outcome_of (run oracle g w)).
Proof.
  induction g as [a | e | y k IH | c k IH]; intros P w HP; simpl in *.
  - exact HP.
  - exact HP.
  - specialize (IH _ w HP).
    destruct (run oracle k w) as [[t res] w']. exact IH.
  - destruct (handle oracle c w) as [r w1].
    specialize (IH r _ w1 (HP r)).
    destruct (run oracle (k r) w1) as [[t res] w']. exact IH.
Qed.

(** The memory store after a run is the store before it followed by
    the records of the calls to [add_memory] that returned. *)
Lemma run_store {Y A} (g : gen Y A) :
  forall w : World O,
    store (world_of (run oracle g w))
    = store w ++ appended (trace_of (run oracle g w)).
Proof.
  induction g as [a | e | y k IH | c k IH]; intros w; simpl.
  - now rewrite app_nil_r.
  - now rewrite app_nil_r.
  - specialize (IH w).
    destruct (run oracle k w) as [[t res] w']. exact IH.
  - unfold handle.
    destruct (oracle c (outside w)) as [r o] eqn:Ho.
    match goal with
    | |- context [run oracle (k r) ?w1] =>
        specialize (IH r w1); destruct (run oracle (k r) w1) as [[t res] w']
    end.
    unfold world_of, trace_of in *. simpl in *. rewrite IH.
    destruct c; simpl; try reflexivity.
    destruct r as [[] | e]; simpl; [ | reflexivity].
    now rewrite <- app_assoc.
Qed.

End RunFacts.

Lemma pystr_eqb_eq (a b : pystr) : pystr_eqb a b = true <-> a = b.
Proof.
  revert b; induction a as [| x a IH]; intros [| y b]; simpl; split;
    try discriminate; try reflexivity.
  - intros H. apply andb_prop in H as [H1 H2].
    apply N.eqb_eq in H1. apply IH in H2. now subst.
  - intros H. injection H as -> ->. rewrite N.eqb_refl. simpl. now apply IH.
Qed.

Lemma is_error_event_content c n m : is_error_event (content_event c n m) = false.
Proof. reflexivity. Qed.

Lemma is_error_event_error e : is_error_event (error_event e) = true.
Proof. reflexivity. Qed.

Lemma content_of_content c n m : content_of (content_event c n m) = c.
Proof. reflexivity. Qed.

Lemma agent_field_known_error e : agent_field_known (error_event e) = true.
Proof. reflexivity. Qed.

Lemma agent_field_known_content c n m :
  existsb (pystr_eqb n) (map fst AGENT_REGISTRY) = true ->
  agent_field_known (content_event c n m) = true.
Proof. intros H. exact H. Qed.

Lemma registry_get_known n a :
  registry_get n AGENT_REGISTRY = Some a ->
  existsb (pystr_eqb n) (map fst AGENT_REGISTRY) = true.
Proof.
  unfold AGENT_REGISTRY. cbn [registry_get existsb map fst].
  repeat (destruct (pystr_eqb n _); [ reflexivity | ]). discriminate.
Qed.

(** The registry holds exactly the configured domains, each under its
    own agent's [domain]. *)
Lemma registry_keys : map fst AGENT_REGISTRY = agent_domains settings.
Proof. reflexivity. Qed.

Lemma registry_get_domain n a :
  registry_get n AGENT_REGISTRY = Some a -> n = domain a.
Proof.
  unfold AGENT_REGISTRY. cbn [registry_get].
  repeat (destruct (pystr_eqb n _) eqn:E;
          [ apply pystr_eqb_eq in E; intros [= <-]; exact E | clear E ]).
  discriminate.
Qed.


(** * The multi-agent stream endpoint *)

Section MultiAgentStream.
Context {O : Type}.
Variable oracle : forall c : call, O -> result (resp c) * O.
Variable dumps : json -> pystr.
Variable cfg : Settings.
Variable payload : MultiModalRequest.

(** Fragments only carry the name of an agent found in the registry. *)
Lemma agent_field_always :
  always (event_generator dumps cfg payload)
    (fun t _ => Forall (fun ev => agent_field_known ev = true) (emitted t)).
Proof.
  unfold event_generator.
  destruct (mem0_enabled cfg); explore.
  all: repeat constructor.
  all: eapply agent_field_known_content, registry_get_known; eassumption.
Qed.

(** C8. Every fragment the multi-agent stream endpoint emits with an
    [agent] field carries there a key of the agent registry, and these
    keys are the configured domains: research, finance, travel,
    shopping, jobs, recipes. *)
Theorem agent_field_in_domain_set (w : World O) :
  map fst AGENT_REGISTRY = agent_domains settings /\
  Forall (fun ev => agent_field_known ev = true)
         (emitted (trace_of (run oracle (event_generator dumps cfg payload) w))).
Proof.
  split; [ exact registry_keys | ].
  apply (run_always oracle (event_generator dumps cfg payload)
           (fun t _ => Forall (fun ev => agent_field_known ev = true) (emitted t))).
  exact agent_field_always.
Qed.

Lemma unknown_agent_always :
  always (event_generator dumps cfg payload)
    (fun t res =>
       forall n, In n (routed_to t) -> registry_get n AGENT_REGISTRY = None ->
         res = Done tt /\
         emitted t = [error_event (lit "Unknown agent: " ++ n)] /\
         completions t = [] /\ completion_errors t = [] /\ appended t = []).
Proof.
  unfold event_generator.
  destruct (mem0_enabled cfg); explore.
  all: intros n Hin Hnone; cbn [In] in Hin.
  all: repeat match goal with
         | H : _ \/ _ |- _ => destruct H
         | H : False |- _ => destruct H
         end; subst; try congruence.
  all: repeat split.
Qed.

(** C7. When the router returns a domain identifier that is no key of
    the agent registry, the request ends with the single error fragment
    [Unknown agent: <identifier>]: no default agent is substituted, no
    content fragment is emitted, no completion is requested and nothing
    is written to the memory store. *)
Theorem unknown_agent_is_fatal (w : World O) (n : pystr) :
  let r := run oracle (event_generator dumps cfg payload) w in
  In n (routed_to (trace_of r)) ->
  registry_get n AGENT_REGISTRY = None ->
  outcome_of r = Done tt /\
  emitted (trace_of r) = [error_event (lit "Unknown agent: " ++ n)] /\
  is_error_event (error_event (lit "Unknown agent: " ++ n)) = true /\
  completions (trace_of r) = [] /\
  store (world_of r) = store w.
Proof.
  intros r Hin Hnone. subst r.
  pose proof (run_always oracle _ _ w unknown_agent_always n Hin Hnone)
    as (Hres & Hem & Hc & _ & Happ).
  pose proof (run_store oracle (event_generator dumps cfg payload) w) as Hst.
  rewrite Happ, app_nil_r in Hst.
  repeat split; assumption || reflexivity.
Qed.

Lemma completion_failure_always :
  always (event_generator dumps cfg payload)
    (fun t res =>
       forall e, In e (completion_errors t) ->
         res = Done tt /\
         (exists pre,
             emitted t = pre ++ [error_event e] /\
             existsb is_error_event pre = false) /\
         appended t = []).
Proof.
  unfold event_generator.
  destruct (mem0_enabled cfg); explore.
  all: intros e' Hin; cbn [In] in Hin.
  all: repeat match goal with
         | H : _ \/ _ |- _ => destruct H
         | H : False |- _ => destruct H
         end; subst.
  all: split; [ reflexivity | split; [ | reflexivity ] ].
  all: eexists [_]; split; reflexivity.
Qed.

(** C5. When the completion provider's call raises, after the fragments
    already emitted the endpoint emits exactly one error fragment, an
    object with the fields [error] and [content]; that fragment is the
    last one, and no record is appended to the memory store. *)
Theorem completion_failure_is_terminal (w : World O) (e : exn) :
  let r := run oracle (event_generator dumps cfg payload) w in
  In e (completion_errors (trace_of r)) ->
  outcome_of r = Done tt /\
  (exists pre,
      emitted (trace_of r) = pre ++ [error_event e] /\
      existsb is_error_event pre = false) /\
  error_event e = [(lit "error", JStr e); (lit "content", JStr (lit "Error: " ++ e))] /\
  appended (trace_of r) = [] /\
  store (world_of r) = store w.
Proof.
  intros r Hin. subst r.
  pose proof (run_always oracle _ _ w completion_failure_always e Hin)
    as (Hres & Hpre & Happ).
  pose proof (run_store oracle (event_generator dumps cfg payload) w) as Hst.
  rewrite Happ, app_nil_r in Hst.
  repeat split; assumption || reflexivity.
Qed.

End MultiAgentStream.

Section MultiAgentStreamMemory.
Context {O : Type}.
Variable oracle : forall c : call, O -> result (resp c) * O.
Variable dumps : json -> pystr.
Variable cfg : Settings.
Variable payload : MultiModalRequest.

Lemma normal_stream_always :
  always (event_generator dumps cfg payload)
    (fun t res =>
       existsb is_error_event (emitted t) = false ->
       exists a n txt,
         registry_get n AGENT_REGISTRY = Some a /\
         routed_to t = [n] /\
         completions t = [txt] /\
         emitted t = [content_event (status_line a) n (mode payload);
                      content_event txt n (mode payload)] /\
         appended t =
           agent_record a (message payload) (user_id payload)
           :: (if mem0_enabled cfg
               then [orchestrator_record n payload (status_line a ++ txt)]
               else [])).
Proof.
  unfold event_generator.
  destruct (mem0_enabled cfg); explore.
  all: intros Hno.
  all: try (vm_compute in Hno; discriminate).
  all: eexists _, _, _; split; [ eassumption | ].
  all: repeat split.
Qed.

(** C1 (amended). When a request to the multi-agent stream endpoint
    completes normally with the memory store enabled, the concatenation
    of the fragments' [content] values, in emission order, is the
    agent's status line followed by the completion text; the record the
    orchestrator appends stores the length of that text under
    [response_length], and its message is "Used <agent> agent: "
    followed by the first 100 characters of the request's message.  No
    record appended for the request has the streamed text as message. *)
Theorem streamed_text_is_measured_not_stored (w : World O) :
  let r := run oracle (event_generator dumps cfg payload) w in
  mem0_enabled cfg = true ->
  existsb is_error_event (emitted (trace_of r)) = false ->
  exists a n txt,
    registry_get n AGENT_REGISTRY = Some a /\
    completions (trace_of r) = [txt] /\
    streamed_text (trace_of r) = status_line a ++ txt /\
    In {| owner := user_id payload;
          mr_message := lit "Used " ++ n ++ lit " agent: "
                            ++ slice_to 100 (message payload);
          metadata :=
            [(lit "agent", JStr n);
             (lit "mode", JStr (mode payload));
             (lit "response_length",
              JNum (Z.of_nat (len (streamed_text (trace_of r)))))] |}
       (appended (trace_of r)) /\
    (forall rec, In rec (appended (trace_of r)) ->
                 mr_message rec <> streamed_text (trace_of r)).
Proof.
  intros r Hen Hno. subst r.
  destruct (run_always oracle _ _ w normal_stream_always Hno)
    as (a & n & txt & Hreg & _ & Hc & Hem & Happ).
  rewrite Hen in Happ.
  assert (Htxt : streamed_text
                   (trace_of (run oracle (event_generator dumps cfg payload) w))
                 = status_line a ++ txt).
  { unfold streamed_text. rewrite Hem. cbn [map List.concat].
    rewrite !content_of_content. now rewrite app_nil_r. }
  exists a, n, txt. rewrite Htxt, Happ.
  repeat split; try assumption.
  - right. left. reflexivity.
  - intros rec [<- | [<- | []]]; destruct a; intros H; vm_compute in H;
      discriminate.
Qed.

(** C2 (amended). When a request to the multi-agent stream endpoint
    completes normally with the memory store enabled, exactly two
    records are appended for it: first the domain agent's, then the
    orchestrator's. *)
Theorem two_records_per_normal_request (w : World O) :
  let r := run oracle (event_generator dumps cfg payload) w in
  mem0_enabled cfg = true ->
  existsb is_error_event (emitted (trace_of r)) = false ->
  exists a n txt,
    registry_get n AGENT_REGISTRY = Some a /\
    completions (trace_of r) = [txt] /\
    store (world_of r)
    = store w ++ [agent_record a (message payload) (user_id payload);
                  orchestrator_record n payload (status_line a ++ txt)].
Proof.
  intros r Hen Hno. subst r.
  destruct (run_always oracle _ _ w normal_stream_always Hno)
    as (a & n & txt & Hreg & _ & Hc & _ & Happ).
  rewrite Hen in Happ.
  exists a, n, txt. rewrite run_store, Happ. auto.
Qed.

Lemma memory_read_failure_always :
  always (event_generator dumps cfg payload)
    (fun t res =>
       forall e, In e (memory_read_errors t) ->
         res = Done tt /\
         emitted t = [error_event e] /\
         route_calls t = 0 /\
         completions t = [] /\
         appended t = []).
Proof.
  unfold event_generator.
  destruct (mem0_enabled cfg); explore.
  all: intros e' Hin; cbn [In] in Hin.
  all: repeat match goal with
         | H : _ \/ _ |- _ => destruct H
         | H : False |- _ => destruct H
         end; subst.
  all: repeat split.
Qed.

(** C3 (amended). When the orchestrator's read of the memory store
    raises, the request ends there: the only fragment emitted is the
    error fragment of that exception, the router is not invoked, no
    agent runs and nothing is written to the memory store. *)
Theorem memory_read_failure_aborts (w : World O) (e : exn) :
  let r := run oracle (event_generator dumps cfg payload) w in
  In e (memory_read_errors (trace_of r)) ->
  outcome_of r = Done tt /\
  emitted (trace_of r) = [error_event e] /\
  route_calls (trace_of r) = 0 /\
  completions (trace_of r) = [] /\
  store (world_of r) = store w.
Proof.
  intros r Hin. subst r.
  pose proof (run_always oracle _ _ w memory_read_failure_always e Hin)
    as (Hres & Hem & Hrt & Hc & Happ).
  pose proof (run_store oracle (event_generator dumps cfg payload) w) as Hst.
  rewrite Happ, app_nil_r in Hst.
  repeat split; assumption.
Qed.

End MultiAgentStreamMemory.

(** * The domain agents *)

Section DomainAgents.
Context {O : Type}.
Variable oracle : forall c : call, O -> result (resp c) * O.
Variable dumps : json -> pystr.
Variable a : agent.
Variables message uid : pystr.
Variable user_memories : option pydict.

Lemma tool_failure_always :
  always (process dumps a message uid user_memories)
    (fun t res =>
       forall e, In e (tool_errors t) ->
         res = Raised e /\
         emitted t = [status_line a] /\
         completions t = [] /\
         completion_errors t = [] /\
         appended t = []).
Proof.
  destruct a; explore.
  all: intros e' Hin; cbn [In] in Hin.
  all: repeat match goal with
         | H : _ \/ _ |- _ => destruct H
         | H : False |- _ => destruct H
         end; subst.
  all: repeat split.
Qed.

(** C4 (amended). When a tool provider's search call raises inside a
    domain agent's [process], the exception leaves the generator: only
    the status line has been emitted, the completion provider is never
    called and the agent appends no record. *)
Theorem tool_failure_aborts_agent (w : World O) (e : exn) :
  let r := run oracle (process dumps a message uid user_memories) w in
  In e (tool_errors (trace_of r)) ->
  outcome_of r = Raised e /\
  emitted (trace_of r) = [status_line a] /\
  completions (trace_of r) = [] /\
  completion_errors (trace_of r) = [] /\
  store (world_of r) = store w.
Proof.
  intros r Hin. subst r.
  pose proof (run_always oracle _ _ w tool_failure_always e Hin)
    as (Hres & Hem & Hc & Hce & Happ).
  pose proof (run_store oracle (process dumps a message uid user_memories) w)
    as Hst.
  rewrite Happ, app_nil_r in Hst.
  repeat split; assumption.
Qed.

Lemma agent_stream_always :
  always (process dumps a message uid user_memories)
    (fun t res =>
       hd_error t = Some (Emitted (status_line a)) /\
       forall txt, In txt (completions t) ->
         completions t = [txt] /\
         emitted t = [status_line a; txt]).
Proof.
  destruct a; explore.
  all: split; [ reflexivity | ].
  all: intros txt Hin; cbn [In] in Hin.
  all: repeat match goal with
         | H : _ \/ _ |- _ => destruct H
         | H : False |- _ => destruct H
         end; subst.
  all: repeat split.
Qed.

(** C6 (amended). A domain agent's [process] first emits its fixed
    status line, before it calls any collaborator; once the completion
    provider has returned, it emits the provider's whole text as one
    single fragment, and nothing else. *)
Theorem agent_emits_status_then_whole_completion (w : World O) (txt : pystr) :
  let r := run oracle (process dumps a message uid user_memories) w in
  In txt (completions (trace_of r)) ->
  completions (trace_of r) = [txt] /\
  emitted (trace_of r) = [status_line a; txt] /\
  hd_error (trace_of r) = Some (Emitted (status_line a)).
Proof.
  intros r Hin. subst r.
  pose proof (run_always oracle _ _ w agent_stream_always) as (Hhd & Hrest).
  destruct (Hrest txt Hin) as (Hc & Hem).
  repeat split; assumption.
Qed.

End DomainAgents.

(** * The completion service *)

Section CompletionService.
Context {O : Type}.
Variable oracle : forall c : call, O -> result (resp c) * O.
Variable cfg : Settings.
Variable messages : list Message.
Variable system_prompt : pystr.

(** C9. When the streaming [create] call of [stream_chat_completion]
    raises, the exception is caught: a second, non-streaming [create]
    call is made with the same arguments, and when it returns the
    generator yields the text of its first choice as one fragment, or
    nothing when there is no such text, and ends normally.  (An
    exception of the second call leaves the generator.) *)
Theorem streaming_failure_falls_back (w : World O) (e : exn) (o1 : O) :
  let args := create_args cfg (with_system system_prompt messages) in
  oracle (CreateStream args) (outside w) = (Err e, o1) ->
  let '(r2, o2) := oracle (CreateCompletion args) o1 in
  run oracle (stream_chat_completion cfg messages system_prompt) w
  = (Called (CreateStream args) (Err e)
       :: Called (CreateCompletion args) r2
       :: match r2 with
          | Ok response =>
              match first_content (choices response) with
              | Some c => [Emitted c]
              | None => []
              end
          | Err _ => []
          end,
     match r2 with
     | Ok _ => Done tt
     | Err e2 => Raised e2
     end,
     {| store := store w; outside := o2 |}).
Proof.
  intros args Hfail.
  destruct (oracle (CreateCompletion args) o1) as [r2 o2] eqn:Hretry.
  unfold stream_chat_completion. fold (with_system system_prompt messages).
  fold args.
  cbn [run try_except bind await]. unfold handle at 1. rewrite Hfail.
  cbn [run try_except bind await outside]. unfold handle at 1.
  cbn [outside]. rewrite Hretry.
  destruct r2 as [response | e2]; cbn [run store bind].
  - destruct (first_content (choices response)); reflexivity.
  - reflexivity.
Qed.

End CompletionService.

(** * The legacy endpoint *)

Lemma first_user_app (l : list Message) (m : Message) :
  first_user (l ++ [m])
  = match first_user l with
    | Some c => Some c
    | None => if pystr_eqb (role m) (lit "user") then Some (content m) else None
    end.
Proof.
  induction l as [| x l IH]; simpl.
  - reflexivity.
  - destruct (pystr_eqb (role x) (lit "user")); [ reflexivity | exact IH ].
Qed.

(** Scanning the reversed list finds the last user message. *)
Lemma first_user_rev (ms : list Message) :
  first_user (rev ms) = last_user ms.
Proof.
  induction ms as [| m ms IH]; simpl.
  - reflexivity.
  - rewrite first_user_app, IH. reflexivity.
Qed.

Lemma formatted_messages_id (ms : list Message) :
  map (fun m => {| role := role m; content := content m |}) ms = ms.
Proof.
  induction ms as [| [r c] ms IH]; simpl; [ reflexivity | now rewrite IH ].
Qed.

(** C10 (amended). The legacy endpoint answers with status 400,
    without opening a stream, when the message list is empty, when it
    has no message of role [user], and when the content of its last
    user message is empty.  Otherwise it opens the stream, and the
    completion is requested for the system prompt followed by all the
    messages of the list, in order. *)
Theorem llm_stream_validation (cfg : Settings) (messages : list Message) :
  (messages = [] ->
   llm_stream cfg messages = HTTPException 400 (lit "No messages provided")) /\
  (messages <> [] ->
   last_user messages = None \/ last_user messages = Some [] ->
   llm_stream cfg messages = HTTPException 400 (lit "No user message found")) /\
  (forall c, last_user messages = Some c -> c <> [] ->
     llm_stream cfg messages = StreamingResponse (llm_event_generator cfg messages) /\
     exists k,
       llm_event_generator cfg messages
       = Ext (CreateStream
                (create_args cfg (with_system legacy_system_prompt messages))) k).
Proof.
  unfold llm_stream. rewrite first_user_rev.
  split; [ | split ].
  - intros ->. reflexivity.
  - intros Hne [H | H]; rewrite H; destruct messages; try easy.
  - intros c Hc Hne. rewrite Hc.
    destruct messages as [| m ms]; [ discriminate | ].
    destruct c as [| x c]; [ easy | ].
    split; [ reflexivity | ].
    unfold llm_event_generator, stream_chat_completion.
    rewrite formatted_messages_id.
    eexists. reflexivity.
Qed.

(** * The claims on sample runs *)

(** C1, as stated, fails on the healthy run: the fragments concatenate
    to the status line followed by [Go.], and neither of the two records
    appended has that text as its message. *)
Lemma persisted_text_counterexample :
  existsb is_error_event (emitted (trace_of healthy_run)) = false /\
  streamed_text (trace_of healthy_run)
  = [9992%N; 65039%N] ++ lit " Searching for travel options..." ++ nl ++ lit "Go." /\
  map mr_message (store (world_of healthy_run))
  = [lit "Travel Interest: hi"; lit "Used travel agent: hi"] /\
  ~ (exists rec, In rec (store (world_of healthy_run)) /\
                 mr_message rec = streamed_text (trace_of healthy_run)).
Proof.
  repeat split; try (vm_compute; reflexivity).
  intros (rec & Hin & Heq). vm_compute in Hin, Heq.
  destruct Hin as [<- | [<- | []]]; discriminate.
Qed.

Lemma streamed_text_is_measured_not_stored_witness :
  mem0_enabled settings = true /\
  existsb is_error_event (emitted (trace_of healthy_run)) = false /\
  exists a n txt,
    registry_get n AGENT_REGISTRY = Some a /\
    completions (trace_of healthy_run) = [txt] /\
    streamed_text (trace_of healthy_run) = status_line a ++ txt /\
    In {| owner := user_id sample_request;
          mr_message := lit "Used " ++ n ++ lit " agent: "
                            ++ slice_to 100 (message sample_request);
          metadata :=
            [(lit "agent", JStr n);
             (lit "mode", JStr (mode sample_request));
             (lit "response_length",
              JNum (Z.of_nat (len (streamed_text (trace_of healthy_run)))))] |}
       (appended (trace_of healthy_run)) /\
    (forall rec, In rec (appended (trace_of healthy_run)) ->
                 mr_message rec <> streamed_text (trace_of healthy_run)).
Proof.
  split; [ reflexivity | split; [ vm_compute; reflexivity | ] ].
  apply (streamed_text_is_measured_not_stored
           (scripted no_fault (lit "travel") (lit "Go."))
           sample_dumps settings sample_request empty_world).
  - reflexivity.
  - vm_compute; reflexivity.
Defined.

(** C2, as stated, fails on the healthy run: starting from an empty
    store, two records are there at the end, the agent's and the
    orchestrator's. *)
Lemma record_count_counterexample :
  mem0_enabled settings = true /\
  existsb is_error_event (emitted (trace_of healthy_run)) = false /\
  store (world_of healthy_run)
  = [agent_record travel_agent (lit "hi") (lit "u1");
     orchestrator_record (lit "travel") sample_request
       (status_line travel_agent ++ lit "Go.")] /\
  ~ (List.length (store (world_of healthy_run))
     = List.length (store empty_world) + 1).
Proof.
  repeat split; try (vm_compute; reflexivity).
  vm_compute. discriminate.
Qed.

Lemma two_records_per_normal_request_witness :
  mem0_enabled settings = true /\
  existsb is_error_event (emitted (trace_of healthy_run)) = false /\
  exists a n txt,
    registry_get n AGENT_REGISTRY = Some a /\
    completions (trace_of healthy_run) = [txt] /\
    store (world_of healthy_run)
    = store empty_world
      ++ [agent_record a (message sample_request) (user_id sample_request);
          orchestrator_record n sample_request (status_line a ++ txt)].
Proof.
  split; [ reflexivity | split; [ vm_compute; reflexivity | ] ].
  apply (two_records_per_normal_request
           (scripted no_fault (lit "travel") (lit "Go."))
           sample_dumps settings sample_request empty_world).
  - reflexivity.
  - vm_compute; reflexivity.
Defined.

(** C3, as stated, fails when the memory read raises: the router is
    never invoked and the only fragment is the error fragment. *)
Lemma memory_read_counterexample :
  memory_read_errors (trace_of memory_down_run) = [lit "mem0 unavailable"] /\
  emitted (trace_of memory_down_run) = [error_event (lit "mem0 unavailable")] /\
  route_calls (trace_of memory_down_run) = 0 /\
  ~ (1 <= route_calls (trace_of memory_down_run) /\
     existsb is_error_event (emitted (trace_of memory_down_run)) = false).
Proof.
  repeat split; try (vm_compute; reflexivity).
  intros [H _]. vm_compute in H. lia.
Qed.

Lemma memory_read_failure_aborts_witness :
  In (lit "mem0 unavailable") (memory_read_errors (trace_of memory_down_run)) /\
  (outcome_of memory_down_run = Done tt /\
   emitted (trace_of memory_down_run) = [error_event (lit "mem0 unavailable")] /\
   route_calls (trace_of memory_down_run) = 0 /\
   completions (trace_of memory_down_run) = [] /\
   store (world_of memory_down_run) = store empty_world).
Proof.
  split; [ vm_compute; left; reflexivity | ].
  apply (memory_read_failure_aborts
           (scripted memory_read_down (lit "travel") (lit "Go."))
           sample_dumps settings sample_request empty_world).
  vm_compute; left; reflexivity.
Defined.

(** C4, as stated, fails when the job search raises: the exception
    leaves the jobs agent, which never calls the completion provider. *)
Lemma tool_failure_counterexample :
  tool_errors (trace_of jobs_agent_run) = [lit "serpapi timeout"] /\
  outcome_of jobs_agent_run = Raised (lit "serpapi timeout") /\
  emitted (trace_of jobs_agent_run) = [status_line jobs_agent] /\
  completions (trace_of jobs_agent_run) = [] /\
  completion_errors (trace_of jobs_agent_run) = [] /\
  ~ (outcome_of jobs_agent_run = Done tt).
Proof.
  repeat split; try (vm_compute; reflexivity).
  vm_compute. discriminate.
Qed.

Lemma tool_failure_aborts_agent_witness :
  In (lit "serpapi timeout") (tool_errors (trace_of jobs_agent_run)) /\
  (outcome_of jobs_agent_run = Raised (lit "serpapi timeout") /\
   emitted (trace_of jobs_agent_run) = [status_line jobs_agent] /\
   completions (trace_of jobs_agent_run) = [] /\
   completion_errors (trace_of jobs_agent_run) = [] /\
   store (world_of jobs_agent_run) = store empty_world).
Proof.
  split; [ vm_compute; left; reflexivity | ].
  apply (tool_failure_aborts_agent
           (scripted jobs_search_down (lit "jobs") (lit "Go."))
           sample_dumps jobs_agent (lit "hi") (lit "u1") None empty_world).
  vm_compute; left; reflexivity.
Defined.

Lemma completion_failure_is_terminal_witness :
  In (lit "rate limit") (completion_errors (trace_of completion_down_run)) /\
  (outcome_of completion_down_run = Done tt /\
   (exists pre,
       emitted (trace_of completion_down_run)
       = pre ++ [error_event (lit "rate limit")] /\
       existsb is_error_event pre = false) /\
   error_event (lit "rate limit")
   = [(lit "error", JStr (lit "rate limit"));
      (lit "content", JStr (lit "Error: " ++ lit "rate limit"))] /\
   appended (trace_of completion_down_run) = [] /\
   store (world_of completion_down_run) = store empty_world).
Proof.
  split; [ vm_compute; left; reflexivity | ].
  apply (completion_failure_is_terminal
           (scripted completion_down (lit "travel") (lit "Go."))
           sample_dumps settings sample_request empty_world).
  vm_compute; left; reflexivity.
Defined.

(** C6, as stated, fails on the research agent: its first fragment is
    the status line, which the completion provider never produced. *)
Lemma forwarding_counterexample :
  completions (trace_of research_agent_run) = [lit "Go."] /\
  emitted (trace_of research_agent_run)
  = [status_line research_agent; lit "Go."] /\
  emitted (trace_of research_agent_run)
  <> completions (trace_of research_agent_run).
Proof.
  repeat split; try (vm_compute; reflexivity).
  vm_compute. discriminate.
Qed.

Lemma agent_emits_status_then_whole_completion_witness :
  In (lit "Go.") (completions (trace_of research_agent_run)) /\
  (completions (trace_of research_agent_run) = [lit "Go."] /\
   emitted (trace_of research_agent_run)
   = [status_line research_agent; lit "Go."] /\
   hd_error (trace_of research_agent_run)
   = Some (Emitted (status_line research_agent))).
Proof.
  split; [ vm_compute; left; reflexivity | ].
  apply (agent_emits_status_then_whole_completion
           (scripted no_fault (lit "research") (lit "Go."))
           sample_dumps research_agent (lit "hi") (lit "u1") None empty_world).
  vm_compute; left; reflexivity.
Defined.

Lemma unknown_agent_is_fatal_witness :
  In (lit "weather") (routed_to (trace_of unrouted_run)) /\
  registry_get (lit "weather") AGENT_REGISTRY = None /\
  (outcome_of unrouted_run = Done tt /\
   emitted (trace_of unrouted_run)
   = [error_event (lit "Unknown agent: " ++ lit "weather")] /\
   is_error_event (error_event (lit "Unknown agent: " ++ lit "weather")) = true /\
   completions (trace_of unrouted_run) = [] /\
   store (world_of unrouted_run) = store empty_world).
Proof.
  split; [ vm_compute; left; reflexivity | split; [ reflexivity | ] ].
  apply (unknown_agent_is_fatal
           (scripted no_fault (lit "weather") (lit "Go."))
           sample_dumps settings sample_request empty_world (lit "weather")).
  - vm_compute; left; reflexivity.
  - reflexivity.
Defined.

Lemma streaming_failure_falls_back_witness :
  scripted streaming_down (lit "research") (lit "Go.")
    (CreateStream
       (create_args settings (with_system legacy_system_prompt sample_messages)))
    (outside empty_world)
  = (Err (lit "stream refused"), tt) /\
  emitted (trace_of fallback_run) = [lit "Go."] /\
  outcome_of fallback_run = Done tt.
Proof.
  split; [ reflexivity | ].
  pose proof (streaming_failure_falls_back
                (scripted streaming_down (lit "research") (lit "Go."))
                settings sample_messages legacy_system_prompt
                empty_world (lit "stream refused") tt eq_refl) as H.
  cbv beta zeta in H.
  change (scripted streaming_down (lit "research") (lit "Go.")
            (CreateCompletion
               (create_args settings
                  (with_system legacy_system_prompt sample_messages))) tt)
    with (Ok {| choices := [Some (lit "Go.")] |} : result ChatCompletion, tt) in H.
  cbv iota beta in H.
  unfold fallback_run. rewrite H. split; reflexivity.
Defined.

(** C10, as stated, fails on a list whose only user message is empty:
    the list is not empty and has a user message, and the answer is
    still 400, no stream. *)
Lemma blank_user_message_counterexample :
  blank_messages <> [] /\
  last_user blank_messages = Some [] /\
  llm_stream settings blank_messages
  = HTTPException 400 (lit "No user message found") /\
  ~ (exists body, llm_stream settings blank_messages = StreamingResponse body).
Proof.
  repeat split; try discriminate.
  intros [body H]. discriminate H.
Qed.

Lemma llm_stream_validation_witness :
  last_user sample_messages = Some (lit "again") /\
  lit "again" <> [] /\
  llm_stream settings sample_messages
  = StreamingResponse (llm_event_generator settings sample_messages).
Proof.
  split; [ reflexivity | split; [ discriminate | ] ].
  destruct (llm_stream_validation settings sample_messages) as (_ & _ & H).
  destruct (H (lit "again") eq_refl) as [Hs _]; [ discriminate | exact Hs ].
Defined.

(** * Further properties of the multi-agent stream endpoint *)

Section StreamShape.
Context {O : Type}.
Variable oracle : forall c : call, O -> result (resp c) * O.
Variable dumps : json -> pystr.
Variable cfg : Settings.
Variable payload : MultiModalRequest.



Lemma route_failure_always :
  always (event_generator dumps cfg payload)
    (fun t res =>
       forall e, In e (route_errors t) ->
         emitted t = [error_event e] /\
         completion_calls t = 0 /\
         appended t = []).
Proof.
  unfold event_generator.
  destruct (mem0_enabled cfg); explore_more.
  all: intros e' Hin; cbn [In] in Hin.
  all: repeat match goal with
         | H : _ \/ _ |- _ => destruct H
         | H : False |- _ => destruct H
         end; subst.
  all: repeat split.
Qed.

(** X2. When the supervisor's [route] raises, the request ends with the
    single error fragment of that exception: no agent is looked up, no
    completion is requested and nothing is written to the memory
    store. *)
Theorem route_failure_is_fatal (w : World O) (e : exn) :
  let r := run oracle (event_generator dumps cfg payload) w in
  In e (route_errors (trace_of r)) ->
  emitted (trace_of r) = [error_event e] /\
  completion_calls (trace_of r) = 0 /\
  store (world_of r) = store w.
Proof.
  intros r Hin. subst r.
  pose proof (run_always oracle _ _ w route_failure_always e Hin)
    as (Hem & Hc & Happ).
  rewrite run_store, Happ, app_nil_r. auto.
Qed.

Lemma content_fields_always :
  always (event_generator dumps cfg payload)
    (fun t res =>
       forall ev, In ev (emitted t) -> is_error_event ev = false ->
         exists c n,
           routed_to t = [n] /\
           ev = content_event c n (mode payload)).
Proof.
  unfold event_generator.
  destruct (mem0_enabled cfg); explore_more.
  all: intros ev Hin Hno; cbn [In] in Hin.
  all: repeat match goal with
         | H : _ \/ _ |- _ => destruct H
         | H : False |- _ => destruct H
         end; subst.
  all: try (vm_compute in Hno; discriminate).
  all: eexists _, _; split; reflexivity.
Qed.

(** X3. Every content fragment of a request carries, besides its text,
    the one domain the router returned for that request under [agent]
    and the request's own [mode] under [mode]. *)
Theorem content_fragment_fields (w : World O) (ev : pydict) :
  let r := run oracle (event_generator dumps cfg payload) w in
  In ev (emitted (trace_of r)) ->
  is_error_event ev = false ->
  exists c n,
    routed_to (trace_of r) = [n] /\
    ev = [(lit "content", JStr c);
          (lit "agent", JStr n);
          (lit "mode", JStr (mode payload))].
Proof.
  intros r Hin Hno. subst r.
  exact (run_always oracle _ _ w content_fields_always ev Hin Hno).
Qed.

Lemma router_input_always :
  always (event_generator dumps cfg payload)
    (fun t res =>
       route_requests t
       = if mem0_enabled cfg then
           map (fun m => (message payload, user_id payload, history_of payload,
                          Some [(lit "memories", JList m);
                                (lit "user_id", JStr (user_id payload))]))
               (memory_reads t)
         else [(message payload, user_id payload, history_of payload, None)]).
Proof.
  unfold event_generator.
  destruct (mem0_enabled cfg); explore_more.
  all: reflexivity.
Qed.

(** X6. The router is asked about the request's own message, user and
    conversation history.  With the memory store enabled it is asked
    only once the memories were read, and gets exactly what the read
    returned; with the store disabled it is asked once, without any
    memory context. *)
Theorem router_sees_fetched_memories (w : World O) :
  let r := run oracle (event_generator dumps cfg payload) w in
  route_requests (trace_of r)
  = if mem0_enabled cfg then
      map (fun m => (message payload, user_id payload,
                     match conversation_history payload with
                     | Some h => h
                     | None => []
                     end,
                     Some [(lit "memories", JList m);
                           (lit "user_id", JStr (user_id payload))]))
          (memory_reads (trace_of r))
    else [(message payload, user_id payload,
           match conversation_history payload with
           | Some h => h
           | None => []
           end, None)].
Proof.
  intros r. subst r.
  pose proof (run_always oracle _ _ w router_input_always) as H.
  cbv beta in H. rewrite H.
  assert (Hh : history_of payload
               = match conversation_history payload with
                 | Some h => h
                 | None => []
                 end).
  { unfold history_of. destruct (conversation_history payload);
      [ apply formatted_messages_id | reflexivity ]. }
  rewrite Hh. reflexivity.
Qed.

Lemma call_budget_always :
  always (event_generator dumps cfg payload)
    (fun t res =>
       route_calls t <= 1 /\
       completion_calls t <= 1 /\
       List.length (appended t) <= 2 /\
       calls t <= 8).
Proof.
  unfold event_generator.
  destruct (mem0_enabled cfg); explore_more.
  all: cbn [List.length]; repeat split; lia.
Qed.

(** X7. One request asks the router at most once and the completion
    provider at most once (one agent runs, never several), appends at
    most two records and makes at most eight calls to its collaborators
    in all. *)
Theorem request_call_budget (w : World O) :
  let r := run oracle (event_generator dumps cfg payload) w in
  route_calls (trace_of r) <= 1 /\
  completion_calls (trace_of r) <= 1 /\
  List.length (store (world_of r)) <= List.length (store w) + 2 /\
  calls (trace_of r) <= 8.
Proof.
  intros r. subst r.
  pose proof (run_always oracle _ _ w call_budget_always)
    as (Hr & Hc & Ha & Hn).
  rewrite run_store, length_app. repeat split; lia.
Qed.



Lemma disabled_store_always :
  always (event_generator dumps cfg payload)
    (fun t res =>
       mem0_enabled cfg = false ->
       memory_reads t = [] /\ memory_read_errors t = []).
Proof.
  unfold event_generator.
  destruct (mem0_enabled cfg); explore_more.
  all: intros H; try discriminate H.
  all: split; reflexivity.
Qed.

(** X4. With the memory store disabled in the settings the orchestrator
    neither reads nor writes it, yet the domain agent does both: a
    request that completes normally still appends one record, the
    agent's. *)
Theorem disabled_store_is_still_written (w : World O) :
  let r := run oracle (event_generator dumps cfg payload) w in
  mem0_enabled cfg = false ->
  existsb is_error_event (emitted (trace_of r)) = false ->
  memory_reads (trace_of r) = [] /\
  memory_read_errors (trace_of r) = [] /\
  exists a n,
    registry_get n AGENT_REGISTRY = Some a /\
    store (world_of r)
    = store w ++ [agent_record a (message payload) (user_id payload)].
Proof.
  intros r Hdis Hno. subst r.
  destruct (run_always oracle _ _ w (normal_stream_always dumps cfg payload) Hno)
    as (a & n & txt & Hreg & _ & _ & _ & Happ).
  rewrite Hdis in Happ.
  destruct (run_always oracle _ _ w disabled_store_always Hdis) as [Hr He].
  repeat split; try assumption.
  exists a, n. rewrite run_store, Happ. auto.
Qed.

(** X8. In a request that completes normally, the record the agent
    appends is tagged, under [domain], with the very identifier the
    router returned, the one every fragment carries under [agent]. *)
Theorem agent_record_domain_is_routed_domain (w : World O) :
  let r := run oracle (event_generator dumps cfg payload) w in
  existsb is_error_event (emitted (trace_of r)) = false ->
  exists n rec rest,
    routed_to (trace_of r) = [n] /\
    appended (trace_of r) = rec :: rest /\
    owner rec = user_id payload /\
    dict_get (lit "domain") (metadata rec) = Some (JStr n) /\
    dict_get (lit "query") (metadata rec) = Some (JStr (message payload)).
Proof.
  intros r Hno. subst r.
  destruct (run_always oracle _ _ w (normal_stream_always dumps cfg payload) Hno)
    as (a & n & txt & Hreg & Hrt & _ & _ & Happ).
  apply registry_get_domain in Hreg. subst n.
  eexists _, _, _. split; [ exact Hrt | ]. split; [ exact Happ | ].
  repeat split.
Qed.

End StreamShape.

(** * Further properties of the domain agents *)

Section AgentShape.
Context {O : Type}.
Variable oracle : forall c : call, O -> result (resp c) * O.
Variable dumps : json -> pystr.
Variable a : agent.
Variables message uid : pystr.
Variable user_memories : option pydict.

Lemma agent_shape_always :
  always (process dumps a message uid user_memories)
    (fun t res =>
       emitted t = status_line a :: completions t /\
       appended t = match res with
                    | Done _ => [agent_record a message uid]
                    | Raised _ => []
                    end /\
       completion_calls t <= 1 /\
       calls t <= 5).
Proof.
  destruct a; explore_more.
  all: repeat split; lia.
Qed.

(** X9. What a domain agent emits is its status line followed by what
    the completion provider returned to it, whatever else happens; the
    provider is called at most once. *)
Theorem agent_emits_status_then_completions (w : World O) :
  let r := run oracle (process dumps a message uid user_memories) w in
  emitted (trace_of r) = status_line a :: completions (trace_of r) /\
  completion_calls (trace_of r) <= 1.
Proof.
  intros r. subst r.
  pose proof (run_always oracle _ _ w agent_shape_always) as (H1 & _ & H3 & _).
  auto.
Qed.

(** X10. A domain agent's write-back is all or nothing: when [process]
    ends normally it has appended exactly one record for the user,
    whose message is the agent's label followed by the first 100
    characters of the query and whose metadata hold the domain and the
    whole query; when an exception leaves it, it has appended none. *)
Theorem agent_write_back_all_or_nothing (w : World O) :
  let r := run oracle (process dumps a message uid user_memories) w in
  store (world_of r)
  = store w ++
    match outcome_of r with
    | Done _ =>
        [{| owner := uid;
            mr_message := memory_label a ++ slice_to 100 message;
            metadata := [(lit "domain", JStr (domain a));
                         (lit "query", JStr message)] |}]
    | Raised _ => []
    end.
Proof.
  intros r. subst r.
  pose proof (run_always oracle _ _ w agent_shape_always) as (_ & H2 & _).
  rewrite run_store, H2. reflexivity.
Qed.

End AgentShape.

Lemma memory_label_length (a : agent) : len (memory_label a) <= 19.
Proof. destruct a; vm_compute; repeat constructor. Qed.

Section AgentRecord.
Context {O : Type}.
Variable oracle : forall c : call, O -> result (resp c) * O.
Variable dumps : json -> pystr.
Variable a : agent.
Variables message uid : pystr.
Variable user_memories : option pydict.

(** X11. Whatever the length of the query, the message of a record an
    agent appends has at most 119 characters; the record belongs to the
    requesting user and keeps the whole query, uncut, in its metadata. *)
Theorem agent_record_message_bounded (w : World O) :
  Forall (fun rec =>
            len (mr_message rec) <= 119 /\
            owner rec = uid /\
            dict_get (lit "query") (metadata rec) = Some (JStr message))
         (appended (trace_of (run oracle
                                  (process dumps a message uid user_memories) w))).
Proof.
  pose proof (run_always oracle _ _ w
                (agent_shape_always dumps a message uid user_memories))
    as (_ & H2 & _).
  rewrite H2.
  destruct (outcome_of _); constructor; [ | constructor ].
  unfold agent_record, len, slice_to. cbn [mr_message owner metadata].
  repeat split.
  rewrite length_app, length_firstn.
  pose proof (memory_label_length a) as H. unfold len in H. lia.
Qed.

End AgentRecord.

(** X12. Of the documents the vector store returns, only the first
    three reach the research agent's context, each cut to 200
    characters: the document lines add at most 618 characters to it. *)
Theorem research_context_documents_bounded
        (news_results doc_results : list snippet) :
  research_context_str news_results doc_results
  = research_context_str news_results (firstn 3 doc_results) /\
  len (research_context_str news_results doc_results)
  <= len (research_context_str news_results []) + 618.
Proof.
  unfold research_context_str. split.
  - now rewrite firstn_firstn.
  - destruct doc_results as [| d1 [| d2 [| d3 rest]]];
      cbn [firstn fold_left]; unfold len, slice_to;
      repeat rewrite ?length_app, ?length_firstn;
      change (List.length (lit "- ")) with 2;
      change (List.length (lit "...")) with 3;
      change (List.length nl) with 1;
      lia.
Qed.

(** * The further properties on sample runs *)

Lemma route_failure_is_fatal_witness :
  In (lit "classifier unreachable") (route_errors (trace_of router_down_run)) /\
  (emitted (trace_of router_down_run)
   = [error_event (lit "classifier unreachable")] /\
   completion_calls (trace_of router_down_run) = 0 /\
   store (world_of router_down_run) = store empty_world).
Proof.
  split; [ vm_compute; left; reflexivity | ].
  apply (route_failure_is_fatal
           (scripted router_down (lit "travel") (lit "Go."))
           sample_dumps settings sample_request empty_world).
  vm_compute; left; reflexivity.
Defined.

Lemma content_fragment_fields_witness :
  In (content_event (lit "Go.") (lit "travel") (lit "text"))
     (emitted (trace_of healthy_run)) /\
  is_error_event (content_event (lit "Go.") (lit "travel") (lit "text")) = false /\
  exists c n,
    routed_to (trace_of healthy_run) = [n] /\
    content_event (lit "Go.") (lit "travel") (lit "text")
    = [(lit "content", JStr c);
       (lit "agent", JStr n);
       (lit "mode", JStr (mode sample_request))].
Proof.
  split; [ vm_compute; right; left; reflexivity | split; [ reflexivity | ] ].
  apply (content_fragment_fields
           (scripted no_fault (lit "travel") (lit "Go."))
           sample_dumps settings sample_request empty_world).
  - vm_compute; right; left; reflexivity.
  - reflexivity.
Defined.


Lemma disabled_store_is_still_written_witness :
  mem0_enabled settings_without_memory = false /\
  existsb is_error_event (emitted (trace_of memoryless_run)) = false /\
  (memory_reads (trace_of memoryless_run) = [] /\
   memory_read_errors (trace_of memoryless_run) = [] /\
   exists a n,
     registry_get n AGENT_REGISTRY = Some a /\
     store (world_of memoryless_run)
     = store empty_world
       ++ [agent_record a (message sample_request) (user_id sample_request)]).
Proof.
  split; [ reflexivity | split; [ vm_compute; reflexivity | ] ].
  apply (disabled_store_is_still_written
           (scripted no_fault (lit "travel") (lit "Go."))
           sample_dumps settings_without_memory sample_request empty_world).
  - reflexivity.
  - vm_compute; reflexivity.
Defined.

Lemma agent_record_domain_is_routed_domain_witness :
  existsb is_error_event (emitted (trace_of healthy_run)) = false /\
  exists n rec rest,
    routed_to (trace_of healthy_run) = [n] /\
    appended (trace_of healthy_run) = rec :: rest /\
    owner rec = user_id sample_request /\
    dict_get (lit "domain") (metadata rec) = Some (JStr n) /\
    dict_get (lit "query") (metadata rec) = Some (JStr (message sample_request)).
Proof.
  split; [ vm_compute; reflexivity | ].
  apply (agent_record_domain_is_routed_domain
           (scripted no_fault (lit "travel") (lit "Go."))
           sample_dumps settings sample_request empty_world).
  vm_compute; reflexivity.
Defined.

(** * Further properties of the completion service *)

Lemma first_content_truthy (l : list (option pystr)) (c : pystr) :
  first_content l = Some c -> str_truthy c = true.
Proof.
  destruct l as [| [x |] l]; simpl; try discriminate.
  destruct (str_truthy x) eqn:E; [ | discriminate ].
  now intros [= <-].
Qed.

Lemma chunk_text_truthy (chunk : StreamChunk) :
  Forall (fun c => str_truthy c = true) (chunk_text chunk).
Proof.
  unfold chunk_text.
  destruct (first_content (chunk_choices chunk)) eqn:E; constructor;
    [ eapply first_content_truthy; eassumption | constructor ].
Qed.

Lemma stream_texts_truthy (s : CompletionStream) :
  Forall (fun c => str_truthy c = true) (stream_texts s).
Proof.
  unfold stream_texts.
  induction (stream_chunks s) as [| chunk l IH]; simpl.
  - constructor.
  - apply Forall_app. split; [ apply chunk_text_truthy | exact IH ].
Qed.

Lemma completion_texts_truthy (r : ChatCompletion) :
  Forall (fun c => str_truthy c = true) (completion_texts r).
Proof.
  unfold completion_texts.
  destruct (first_content (choices r)) eqn:E; constructor;
    [ eapply first_content_truthy; eassumption | constructor ].
Qed.

Lemma emitted_app {Y} (t1 t2 : list (obs Y)) :
  emitted (t1 ++ t2) = emitted t1 ++ emitted t2.
Proof.
  induction t1 as [| [y | c r] t1 IH]; simpl; [ | rewrite IH | ]; auto.
Qed.

Lemma emitted_map_Emitted {Y} (l : list Y) :
  emitted (map Emitted l) = l.
Proof. induction l as [| y l IH]; simpl; [ | rewrite IH ]; auto. Qed.

Section CompletionRuns.
Context {O : Type}.
Variable oracle : forall c : call, O -> result (resp c) * O.

(** Iterating a stream under a handler: the fragments of the chunks,
    then the handler if the iteration breaks. *)
Lemma run_try_iterate (h : exn -> gen pystr unit)
      (chunks : list StreamChunk) (failure : option exn) (w : World O) :
  run oracle (try_except (iterate_chunks chunks failure) h) w
  = let '(t, res, w') :=
      match failure with
      | None => ([], Done tt, w)
      | Some e => run oracle (h e) w
      end in
    (map Emitted (flat_map chunk_text chunks) ++ t, res, w').
Proof.
  induction chunks as [| chunk chunks IH]; cbn [iterate_chunks flat_map].
  - destruct failure as [e |]; cbn [try_except run map app].
    + destruct (run oracle (h e) w) as [[t res] w']. reflexivity.
    + reflexivity.
  - unfold chunk_text at 1.
    destruct (first_content (chunk_choices chunk)) as [c |].
    + cbn [yield bind try_except run]. rewrite IH.
      destruct (match failure with
                | Some e => run oracle (h e) w
                | None => ([], Done tt, w)
                end) as [[t res] w'].
      reflexivity.
    + exact IH.
Qed.

Variable cfg : Settings.
Variable messages : list Message.
Variable system_prompt : pystr.

(** What [stream_chat_completion] does, against any environment. *)
Lemma run_stream_chat_completion (w : World O) :
  let args := create_args cfg (with_system system_prompt messages) in
  run oracle (stream_chat_completion cfg messages system_prompt) w
  = let '(r1, o1) := oracle (CreateStream args) (outside w) in
    let pre := match r1 with Ok s => stream_texts s | Err _ => [] end in
    match match r1 with Ok s => stream_failure s | Err e => Some e end with
    | None =>
        (Called (CreateStream args) r1 :: map Emitted pre, Done tt,
         {| store := store w; outside := o1 |})
    | Some _ =>
        let '(r2, o2) := oracle (CreateCompletion args) o1 in
        (Called (CreateStream args) r1
           :: map Emitted pre
           ++ Called (CreateCompletion args) r2
           :: map Emitted match r2 with
                          | Ok response => completion_texts response
                          | Err _ => []
                          end,
         match r2 with
         | Ok _ => Done tt
         | Err e2 => Raised e2
         end,
         {| store := store w; outside := o2 |})
    end.
Proof.
  intros args.
  unfold stream_chat_completion. fold (with_system system_prompt messages).
  fold args.
  cbn [run try_except bind await]. unfold handle at 1.
  destruct (oracle (CreateStream args) (outside w)) as [[s | e] o1].
  - cbn [bind]. rewrite run_try_iterate. fold (stream_texts s).
    destruct (stream_failure s) as [e |].
    + cbn [run bind await]. unfold handle at 1. cbn [outside store].
      destruct (oracle (CreateCompletion args) o1) as [[response | e2] o2];
        cbn [run bind store]; [ | reflexivity ].
      unfold completion_texts.
      destruct (first_content (choices response)); reflexivity.
    + cbn [app]. rewrite app_nil_r. reflexivity.
  - cbn [run try_except bind await map app]. unfold handle at 1.
    cbn [outside store].
    destruct (oracle (CreateCompletion args) o1) as [[response | e2] o2];
      cbn [run bind store]; [ | reflexivity ].
    unfold completion_texts.
    destruct (first_content (choices response)); reflexivity.
Qed.

(** X13. When the streaming call returns a stream that ends normally,
    [stream_chat_completion] yields, in order, the non-empty text of
    the first choice of each chunk, skipping the chunks without choices
    or without text; it makes no second call and ends normally. *)
Theorem streaming_success_relays_chunks
        (w : World O) (s : CompletionStream) (o1 : O) :
  let args := create_args cfg (with_system system_prompt messages) in
  oracle (CreateStream args) (outside w) = (Ok s, o1) ->
  stream_failure s = None ->
  run oracle (stream_chat_completion cfg messages system_prompt) w
  = (Called (CreateStream args) (Ok s) :: map Emitted (stream_texts s),
     Done tt,
     {| store := store w; outside := o1 |}).
Proof.
  intros args Hs Hend.
  rewrite run_stream_chat_completion. fold args. rewrite Hs, Hend.
  reflexivity.
Qed.

(** X14. When the stream breaks after some chunks, the fragments
    already yielded stay yielded, and the retry's whole text is yielded
    after them: the consumer receives the beginning of the answer
    twice. *)
Theorem streaming_break_repeats_text
        (w : World O) (s : CompletionStream) (e : exn) (o1 o2 : O)
        (response : ChatCompletion) :
  let args := create_args cfg (with_system system_prompt messages) in
  oracle (CreateStream args) (outside w) = (Ok s, o1) ->
  stream_failure s = Some e ->
  oracle (CreateCompletion args) o1 = (Ok response, o2) ->
  let r := run oracle (stream_chat_completion cfg messages system_prompt) w in
  emitted (trace_of r) = stream_texts s ++ completion_texts response /\
  outcome_of r = Done tt.
Proof.
  intros args Hs Hbreak Hretry r. subst r.
  rewrite run_stream_chat_completion. fold args. rewrite Hs, Hbreak, Hretry.
  unfold trace_of, outcome_of. cbn [fst snd emitted].
  rewrite emitted_app, emitted_map_Emitted. cbn [emitted].
  rewrite emitted_map_Emitted. auto.
Qed.

(** X15. Whatever the completion API answers, [stream_chat_completion]
    never yields an empty fragment, makes at most two calls, both with
    the same arguments (the system prompt first, then the caller's
    messages), and leaves the memory store alone. *)
Theorem completion_fragments_are_not_empty (w : World O) :
  let args := create_args cfg (with_system system_prompt messages) in
  let r := run oracle (stream_chat_completion cfg messages system_prompt) w in
  Forall (fun c => str_truthy c = true) (emitted (trace_of r)) /\
  (create_calls (trace_of r) = [(true, args)] \/
   create_calls (trace_of r) = [(true, args); (false, args)]) /\
  store (world_of r) = store w.
Proof.
  intros args r. subst r.
  rewrite run_stream_chat_completion. fold args.
  destruct (oracle (CreateStream args) (outside w)) as [[s | e] o1].
  - destruct (stream_failure s) as [e |].
    + destruct (oracle (CreateCompletion args) o1) as [[response | e2] o2];
        unfold trace_of, world_of; cbn [fst snd emitted create_calls store].
      * rewrite emitted_app, emitted_map_Emitted. cbn [emitted].
        rewrite emitted_map_Emitted.
        repeat split.
        -- apply Forall_app. split;
             [ apply stream_texts_truthy | apply completion_texts_truthy ].
        -- right. clear. induction (stream_texts s) as [| c l IH];
             [ induction (completion_texts response); simpl; auto | exact IH ].
      * rewrite emitted_app, emitted_map_Emitted. cbn [emitted map].
        rewrite app_nil_r.
        repeat split; [ apply stream_texts_truthy | ].
        right. clear. induction (stream_texts s) as [| c l IH]; simpl; auto.
    + unfold trace_of, world_of; cbn [fst snd emitted create_calls store].
      rewrite emitted_map_Emitted.
      repeat split; [ apply stream_texts_truthy | ].
      left. clear. induction (stream_texts s) as [| c l IH]; simpl; auto.
  - destruct (oracle (CreateCompletion args) o1) as [[response | e2] o2];
      unfold trace_of, world_of;
      cbn [fst snd emitted create_calls store map app].
    + rewrite emitted_map_Emitted.
      repeat split; [ apply completion_texts_truthy | ].
      right. clear. induction (completion_texts response); simpl; auto.
    + repeat split; [ constructor | right; reflexivity ].
Qed.

End CompletionRuns.

(** * Further properties of the legacy endpoint *)

Lemma llm_event_generator_unfold (cfg : Settings) (messages : list Message) :
  llm_event_generator cfg messages
  = try_except
      (async_for (stream_chat_completion cfg messages legacy_system_prompt)
                 ([], 0) legacy_relay ;;
       Ret tt)
      legacy_error.
Proof.
  unfold llm_event_generator. rewrite formatted_messages_id. reflexivity.
Qed.

Lemma legacy_relay_truthy (acc : pystr * nat) (c : pystr) :
  str_truthy c = true ->
  legacy_relay acc c
  = Yield (legacy_event c) (Ret (fst acc ++ c, snd acc + 1)).
Proof. intros H. unfold legacy_relay. rewrite H. reflexivity. Qed.

Section LegacyRuns.
Context {O : Type}.
Variable oracle : forall c : call, O -> result (resp c) * O.

(** Relaying what a complete response carries. *)
Lemma run_legacy_fallback (response : ChatCompletion)
      (acc : pystr * nat) (w : World O) :
  run oracle
      (try_except
         (async_for match first_content (choices response) with
                    | Some c => yield c
                    | None => Ret tt
                    end acc legacy_relay ;;
          Ret tt)
         legacy_error) w
  = (map Emitted (map legacy_event (completion_texts response)), Done tt, w).
Proof.
  unfold completion_texts.
  destruct (first_content (choices response)) as [c |] eqn:E.
  - apply first_content_truthy in E.
    cbn [yield async_for]. rewrite (legacy_relay_truthy acc c E).
    reflexivity.
  - reflexivity.
Qed.

Lemma run_legacy_iterate (h : exn -> gen pystr unit)
      (chunks : list StreamChunk) (failure : option exn) :
  forall (acc : pystr * nat) (w : World O),
    run oracle
        (try_except
           (async_for (try_except (iterate_chunks chunks failure) h)
                      acc legacy_relay ;;
            Ret tt)
           legacy_error) w
    = let '(t, res, w') :=
        match failure with
        | None => ([], Done tt, w)
        | Some e =>
            run oracle
                (try_except
                   (async_for (h e)
                              (legacy_accumulate acc (flat_map chunk_text chunks))
                              legacy_relay ;;
                    Ret tt)
                   legacy_error) w
        end in
      (map Emitted (map legacy_event (flat_map chunk_text chunks)) ++ t,
       res, w').
Proof.
  induction chunks as [| chunk chunks IH]; intros acc w;
    cbn [iterate_chunks flat_map].
  - destruct failure as [e |]; cbn [try_except map app].
    + unfold legacy_accumulate. cbn [fold_left].
      destruct (run oracle _ w) as [[t res] w']. reflexivity.
    + reflexivity.
  - unfold chunk_text at 1 3.
    destruct (first_content (chunk_choices chunk)) as [c |] eqn:E.
    + apply first_content_truthy in E.
      cbn [yield bind try_except async_for].
      rewrite (legacy_relay_truthy acc c E).
      cbn [bind try_except run]. rewrite IH.
      unfold legacy_accumulate. cbn [app fold_left fst snd].
      destruct failure as [e |].
      * destruct (run oracle _ w) as [[t res] w']. reflexivity.
      * reflexivity.
    + apply IH.
Qed.

Variable cfg : Settings.
Variable messages : list Message.

(** What the legacy generator does, against any environment. *)
Lemma run_llm_event_generator (w : World O) :
  let args := create_args cfg (with_system legacy_system_prompt messages) in
  run oracle (llm_event_generator cfg messages) w
  = let '(r1, o1) := oracle (CreateStream args) (outside w) in
    let pre := match r1 with Ok s => stream_texts s | Err _ => [] end in
    match match r1 with Ok s => stream_failure s | Err e => Some e end with
    | None =>
        (Called (CreateStream args) r1 :: map Emitted (map legacy_event pre),
         Done tt,
         {| store := store w; outside := o1 |})
    | Some _ =>
        let '(r2, o2) := oracle (CreateCompletion args) o1 in
        (Called (CreateStream args) r1
           :: map Emitted (map legacy_event pre)
           ++ Called (CreateCompletion args) r2
           :: map Emitted
                match r2 with
                | Ok response => map legacy_event (completion_texts response)
                | Err e2 => [[(lit "content", JStr (lit "Error: " ++ e2))]]
                end,
         Done tt,
         {| store := store w; outside := o2 |})
    end.
Proof.
  intros args.
  rewrite llm_event_generator_unfold.
  unfold stream_chat_completion.
  fold (with_system legacy_system_prompt messages). fold args.
  cbn [bind await try_except async_for run]. unfold handle at 1.
  destruct (oracle (CreateStream args) (outside w)) as [[s | e] o1].
  - cbn [bind]. rewrite run_legacy_iterate. fold (stream_texts s).
    destruct (stream_failure s) as [e |].
    + cbn [bind await try_except async_for run]. unfold handle at 1.
      cbn [outside store].
      destruct (oracle (CreateCompletion args) o1) as [[response | e2] o2].
      * cbn [bind]. rewrite run_legacy_fallback. reflexivity.
      * reflexivity.
    + cbn [app]. rewrite app_nil_r. reflexivity.
  - cbn [bind await try_except async_for run map app]. unfold handle at 1.
    cbn [outside store].
    destruct (oracle (CreateCompletion args) o1) as [[response | e2] o2].
    + cbn [bind]. rewrite run_legacy_fallback. reflexivity.
    + reflexivity.
Qed.

Lemma create_calls_app {Y} (t1 t2 : list (obs Y)) :
  create_calls (t1 ++ t2) = create_calls t1 ++ create_calls t2.
Proof.
  induction t1 as [| [y | c r] t1 IH]; simpl; auto.
  destruct c; simpl; rewrite ?IH; auto.
Qed.

Lemma create_calls_map_Emitted {Y} (l : list Y) :
  create_calls (map (@Emitted Y) l) = [].
Proof. induction l as [| y l IH]; simpl; auto. Qed.

(** X16. The legacy generator relays the completion service: it emits
    one object [{content}] for every fragment
    [stream_chat_completion] yields, in the same order, makes the same
    calls, and when the service ends with an exception it adds one last
    object whose content is [Error: ] followed by the exception. *)
Theorem legacy_generator_relays_service (w : World O) :
  let service :=
    run oracle (stream_chat_completion cfg messages legacy_system_prompt) w in
  let legacy := run oracle (llm_event_generator cfg messages) w in
  emitted (trace_of legacy)
  = map legacy_event (emitted (trace_of service))
    ++ match outcome_of service with
       | Done _ => []
       | Raised e => [[(lit "content", JStr (lit "Error: " ++ e))]]
       end /\
  create_calls (trace_of legacy) = create_calls (trace_of service) /\
  world_of legacy = world_of service.
Proof.
  intros service legacy. subst service legacy.
  rewrite run_stream_chat_completion, run_llm_event_generator.
  set (args := create_args cfg (with_system legacy_system_prompt messages)).
  destruct (oracle (CreateStream args) (outside w)) as [[s | e] o1];
    [ destruct (stream_failure s) as [e |] | ];
    try destruct (oracle (CreateCompletion args) o1) as [[response | e2] o2];
    unfold trace_of, outcome_of, world_of;
    cbn [fst snd emitted create_calls map app];
    rewrite ?emitted_app, ?create_calls_app;
    cbn [emitted create_calls map app];
    rewrite ?emitted_map_Emitted, ?create_calls_map_Emitted, ?map_app,
      ?app_nil_r;
    repeat split.
Qed.


End LegacyRuns.

Lemma streaming_success_relays_chunks_witness :
  streaming whole_stream (lit "Hello")
    (CreateStream
       (create_args settings (with_system legacy_system_prompt sample_messages)))
    (outside empty_world)
  = (Ok whole_stream, tt) /\
  stream_failure whole_stream = None /\
  emitted (trace_of whole_stream_run) = [lit "Hel"; lit "lo"] /\
  outcome_of whole_stream_run = Done tt.
Proof.
  split; [ reflexivity | split; [ reflexivity | ] ].
  unfold whole_stream_run.
  rewrite (streaming_success_relays_chunks
             (streaming whole_stream (lit "Hello"))
             settings sample_messages legacy_system_prompt
             empty_world whole_stream tt eq_refl eq_refl).
  split; reflexivity.
Defined.

Lemma streaming_break_repeats_text_witness :
  stream_failure broken_stream = Some (lit "connection reset") /\
  emitted (trace_of broken_stream_run) = [lit "Hel"; lit "lo"; lit "Hello"] /\
  outcome_of broken_stream_run = Done tt.
Proof.
  split; [ reflexivity | ].
  exact (streaming_break_repeats_text
           (streaming broken_stream (lit "Hello"))
           settings sample_messages legacy_system_prompt
           empty_world broken_stream (lit "connection reset") tt tt
           {| choices := [Some (lit "Hello")] |}
           eq_refl eq_refl eq_refl).
Defined.

(** * Properties of [summarize_text] and of the plain endpoints *)

Lemma truncated_text_truthy (text : pystr) :
  str_truthy (truncated_text text) = true.
Proof.
  unfold truncated_text, slice_to.
  destruct (firstn 300 text); reflexivity.
Qed.


Section Summaries.
Context {O : Type}.
Variable oracle : forall c : call, O -> result (resp c) * O.
Variable cfg : Settings.
Variable groq_api : pystr.
Variable text : pystr.
Variable max_words : Z.

Lemma summarize_always :
  always (summarize_text cfg groq_api text max_words)
    (fun t res =>
       exists summary,
         res = Done summary /\
         str_truthy summary = negb (blank text) /\
         (summary = [] \/ summary = truncated_text text \/
          exists c, In (Some c) (flat_map choices (List.concat
                      (map (fun x => match x with
                                     | Called (CreateCompletion _) (Ok r) => [r]
                                     | _ => []
                                     end) t)))
                    /\ summary = strip c) /\
         emitted t = [] /\
         appended t = [] /\
         (create_calls t = [] \/
          create_calls t
          = [(false,
              summarize_args cfg
                (summarize_prompt max_words (slice_to 12000 (strip text))))]) /\
         (blank text = true \/ str_truthy groq_api = false ->
          create_calls t = [])).
Proof.
  unfold summarize_text.
  destruct (blank text) eqn:Hb.
  - cbn [always]. exists []. repeat split; auto.
  - destruct (str_truthy groq_api) eqn:Hk; cbn [negb].
    + cbn [always bind try_except await emitted appended create_calls].
      intros [response | e]; cbn [always bind try_except emitted appended].
      * destruct (choices response) as [| [c |] rest] eqn:Hc;
          cbn [always try_except].
        -- exists (truncated_text text).
           repeat split; auto using truncated_text_truthy.
           intros [H | H]; discriminate.
        -- destruct (str_truthy c && str_truthy (strip c)) eqn:Ht;
             cbn [always try_except].
           ++ exists (strip c). apply andb_prop in Ht as [_ Ht].
              repeat split; auto.
              ** right. right. exists c. split; [ | reflexivity ].
                 cbn [map List.concat flat_map app]. rewrite Hc. left.
                 reflexivity.
              ** intros [H | H]; discriminate.
           ++ exists (truncated_text text).
              repeat split; auto using truncated_text_truthy.
              intros [H | H]; discriminate.
        -- exists (truncated_text text).
           repeat split; auto using truncated_text_truthy.
           intros [H | H]; discriminate.
      * exists (truncated_text text).
        repeat split; auto using truncated_text_truthy.
        intros [H | H]; discriminate.
    + cbn [always]. exists (truncated_text text).
      repeat split; auto using truncated_text_truthy.
Qed.

(** X18. [summarize_text] never raises and never yields or stores
    anything: it returns a string, which is empty exactly when the text
    is empty or all whitespace.  A blank text or a missing API key is
    answered without any call. *)
Theorem summary_is_empty_only_for_blank_text (w : World O) :
  let r := run oracle (summarize_text cfg groq_api text max_words) w in
  exists summary,
    outcome_of r = Done summary /\
    str_truthy summary = negb (blank text) /\
    store (world_of r) = store w /\
    (create_calls (trace_of r) = [] \/
     blank text = false /\ str_truthy groq_api = true).
Proof.
  intros r. subst r.
  destruct (run_always oracle _ _ w summarize_always)
    as (summary & Hres & Ht & _ & _ & Happ & _ & Hcalls).
  exists summary. rewrite run_store, Happ, app_nil_r.
  repeat split; try assumption.
  destruct (blank text); [ left; auto | ].
  destruct (str_truthy groq_api); [ right; auto | left; auto ].
Qed.


End Summaries.

Section PlainEndpoints.
Context {O : Type}.
Variable oracle : forall c : call, O -> result (resp c) * O.
Variable cfg : Settings.

Lemma create_session_always (now : pystr) (body : SessionCreateRequest) :
  always (create_session cfg now body)
    (fun t res =>
       res = Done match write_errors t with
                  | e :: _ => Refused 500 e
                  | [] =>
                      Replied {| created_user_id := sc_user_id body;
                                 created_session_id :=
                                   lit "session-" ++ sc_user_id body;
                                 memory_enabled := mem0_enabled cfg |}
                  end /\
       appended t
       = (if mem0_enabled cfg then
            match write_errors t with
            | _ :: _ => []
            | [] =>
                [{| owner := sc_user_id body;
                    mr_message := lit "User "
                                      ++ fmt_optional (sc_first_name body)
                                      ++ lit " initialized.";
                    metadata := [(lit "session_id",
                                  JStr (lit "session-" ++ sc_user_id body));
                                 (lit "created_at", JStr now)] |}]
            end
          else []) /\
       calls t = (if mem0_enabled cfg then 1 else 0)).
Proof.
  unfold create_session.
  destruct (mem0_enabled cfg);
    cbn [always bind try_except await write_errors appended calls].
  - intros [[] | e];
      cbn [always bind try_except write_errors appended calls]; auto.
  - auto.
Qed.

(** X20. [create_session] never raises anything but its own 500: with
    the memory store enabled it makes one write, and answers 500 with
    the store's exception as detail exactly when that write raised;
    otherwise it answers the user id, the session id [session-] followed
    by the user id, and the flag, having stored one record [User <first
    name> initialized.] for the user.  With the store disabled it makes
    no call at all. *)
Theorem create_session_reply (now : pystr) (body : SessionCreateRequest)
        (w : World O) :
  let r := run oracle (create_session cfg now body) w in
  outcome_of r
  = Done match write_errors (trace_of r) with
         | e :: _ => Refused 500 e
         | [] =>
             Replied {| created_user_id := sc_user_id body;
                        created_session_id := lit "session-" ++ sc_user_id body;
                        memory_enabled := mem0_enabled cfg |}
         end /\
  store (world_of r)
  = store w ++
    (if mem0_enabled cfg then
       match write_errors (trace_of r) with
       | _ :: _ => []
       | [] =>
           [{| owner := sc_user_id body;
               mr_message := lit "User " ++ fmt_optional (sc_first_name body)
                                 ++ lit " initialized.";
               metadata := [(lit "session_id",
                             JStr (lit "session-" ++ sc_user_id body));
                            (lit "created_at", JStr now)] |}]
       end
     else []) /\
  calls (trace_of r) = (if mem0_enabled cfg then 1 else 0).
Proof.
  intros r. subst r.
  destruct (run_always oracle _ _ w (create_session_always now body))
    as (Hres & Happ & Hcalls).
  rewrite run_store, Happ. auto.
Qed.

Variable payload : MultiModalRequest.

Lemma route_message_always :
  always (route_message cfg payload)
    (fun t res =>
       appended t = [] /\
       completion_calls t = 0 /\
       calls t <= 2 /\
       route_requests t
       = (if mem0_enabled cfg then
            map (fun m => (message payload, user_id payload, history_of payload,
                           Some [(lit "memories", JList m);
                                 (lit "count", JNum (Z.of_nat (List.length m)))]))
                (memory_reads t)
          else [(message payload, user_id payload, history_of payload, None)]) /\
       exists rep,
         res = Done rep /\
         match rep with
         | Refused code e =>
             code = 500 /\ memory_read_errors t ++ route_errors t = [e]
         | Replied body =>
             memory_read_errors t ++ route_errors t = [] /\
             exists n,
               routed_to t = [n] /\
               dict_get (lit "status") body = Some (JStr (lit "routed")) /\
               dict_get (lit "recommended_agent") body = Some (JStr n) /\
               dict_get (lit "session_id") body
               = Some (JStr (session_id payload))
         end).
Proof.
  unfold route_message.
  destruct (mem0_enabled cfg); explore_more.
  all: repeat split; try lia.
  all: eexists; split; [ reflexivity | ]; cbn [app].
  all: repeat split.
  all: eexists; repeat split.
Qed.

(** X21. [route_message] only reads: it writes nothing to the memory
    store and requests no completion.  It answers 500 with the
    exception as detail exactly when the memory read or the router
    raised, and otherwise [status: routed] with the router's
    recommended agent, unchecked against the registry, and the
    request's session id. *)
Theorem route_message_reply (w : World O) :
  let r := run oracle (route_message cfg payload) w in
  store (world_of r) = store w /\
  completion_calls (trace_of r) = 0 /\
  exists rep,
    outcome_of r = Done rep /\
    match rep with
    | Refused code e =>
        code = 500 /\
        memory_read_errors (trace_of r) ++ route_errors (trace_of r) = [e]
    | Replied body =>
        memory_read_errors (trace_of r) ++ route_errors (trace_of r) = [] /\
        exists n,
          routed_to (trace_of r) = [n] /\
          dict_get (lit "status") body = Some (JStr (lit "routed")) /\
          dict_get (lit "recommended_agent") body = Some (JStr n) /\
          dict_get (lit "session_id") body = Some (JStr (session_id payload))
    end.
Proof.
  intros r. subst r.
  destruct (run_always oracle _ _ w route_message_always)
    as (Happ & Hc & _ & _ & Hrep).
  rewrite run_store, Happ, app_nil_r. auto.
Qed.

(** X22. The memory context [route_message] hands to the router holds
    the memories read and, under [count], their number; it has no
    [user_id], unlike the context the stream endpoint hands over for
    the same request. *)
Theorem route_message_memory_context (w : World O) :
  let r := run oracle (route_message cfg payload) w in
  route_requests (trace_of r)
  = if mem0_enabled cfg then
      map (fun m => (message payload, user_id payload, history_of payload,
                     Some [(lit "memories", JList m);
                           (lit "count", JNum (Z.of_nat (List.length m)))]))
          (memory_reads (trace_of r))
    else [(message payload, user_id payload, history_of payload, None)].
Proof.
  intros r. subst r.
  destruct (run_always oracle _ _ w route_message_always)
    as (_ & _ & _ & Hreq & _).
  exact Hreq.
Qed.

End PlainEndpoints.

(** * Properties of the voice service *)







Lemma real_audio_length (audio_bytes : pybytes) :
  real_audio audio_bytes = true <-> 1000 < List.length audio_bytes.
Proof.
  unfold real_audio. destruct audio_bytes as [| b l].
  - cbn. split; [ discriminate | lia ].
  - apply Nat.ltb_lt.
Qed.

(** The loop returns the audio of the first configuration that gives
    more than 1000 bytes. *)
Lemma gtts_loop_first (synth : gtts_config -> result pybytes)
      (configs : list gtts_config) (audio_bytes : pybytes) :
  gtts_loop synth configs = Some audio_bytes ->
  exists before config after,
    configs = before ++ config :: after /\
    synth config = Ok audio_bytes /\
    1000 < List.length audio_bytes /\
    Forall (fun c => forall a, synth c = Ok a -> List.length a <= 1000) before.
Proof.
  induction configs as [| config configs IH]; simpl; [ discriminate | ].
  destruct (synth config) as [a | e] eqn:Hs.
  - destruct (real_audio a) eqn:Hr.
    + intros [= <-]. exists [], config, configs.
      repeat split; auto. now apply real_audio_length.
    + intros H. destruct (IH H) as (before & c & after & -> & Hc & Hlen & Hb).
      exists (config :: before), c, after. repeat split; auto.
      constructor; [ | exact Hb ].
      intros a' Ha'. rewrite Hs in Ha'. injection Ha' as <-.
      destruct (Nat.le_gt_cases (List.length a) 1000) as [Hle | Hgt]; auto.
      apply real_audio_length in Hgt. congruence.
  - intros H. destruct (IH H) as (before & c & after & -> & Hc & Hlen & Hb).
    exists (config :: before), c, after. repeat split; auto.
    constructor; [ | exact Hb ].
    intros a' Ha'. rewrite Hs in Ha'. discriminate.
Qed.

Lemma gtts_fallback_first_real_audio_aux
      (gtts_import : result unit)
      (synth : pystr -> gtts_config -> result pybytes)
      (text : pystr) (audio_bytes : pybytes) :
  gtts_fallback gtts_import synth text = Some audio_bytes ->
  1000 < List.length audio_bytes.
Proof.
  unfold gtts_fallback. destruct gtts_import as [[] | e]; [ | discriminate ].
  intros H.
  destruct (gtts_loop_first _ _ _ H) as (_ & _ & _ & _ & _ & H3 & _).
  exact H3.
Qed.

(** X24. Audio returned by [_gtts_fallback] has more than 1000 bytes
    and is what gTTS produced under the first of the configurations
    [com], [co.uk], slow [com] that gave that much; the configurations
    tried before it raised or gave 1000 bytes at most. *)
Theorem gtts_fallback_first_real_audio
        (gtts_import : result unit)
        (synth : pystr -> gtts_config -> result pybytes)
        (text : pystr) (audio_bytes : pybytes) :
  gtts_fallback gtts_import synth text = Some audio_bytes ->
  1000 < List.length audio_bytes /\
  exists before config after,
    gtts_configs = before ++ config :: after /\
    synth text config = Ok audio_bytes /\
    Forall (fun c => forall a, synth text c = Ok a -> List.length a <= 1000)
           before.
Proof.
  unfold gtts_fallback. destruct gtts_import as [[] | e]; [ | discriminate ].
  intros H.
  destruct (gtts_loop_first _ _ _ H) as (before & c & after & H1 & H2 & H3 & H4).
  split; [ exact H3 | ]. exists before, c, after. auto.
Qed.

(** X25. [text_to_speech] returns nothing for an empty or all-whitespace
    text.  Audio it returns is either what OpenAI's speech call
    returned, of whatever size, or gTTS audio of more than 1000 bytes:
    so audio of 1000 bytes or less can only come from OpenAI. *)
Theorem text_to_speech_sources
        (openai_client : bool) (speech : pystr -> pystr -> result pybytes)
        (gtts_import : result unit)
        (synth : pystr -> gtts_config -> result pybytes)
        (text voice : pystr) (audio_bytes : pybytes) :
  text_to_speech openai_client speech gtts_import synth text voice
  = Some audio_bytes ->
  blank text = false /\
  (openai_client = true /\ speech text voice = Ok audio_bytes \/
   gtts_fallback gtts_import synth text = Some audio_bytes /\
   1000 < List.length audio_bytes).
Proof.
  unfold text_to_speech.
  destruct (blank text); [ discriminate | ].
  intros H. split; [ reflexivity | ].
  destruct openai_client.
  - destruct (speech text voice) as [a | e].
    + injection H as <-. left. auto.
    + right. split; [ exact H | ].
      now apply gtts_fallback_first_real_audio_aux in H.
  - right. split; [ exact H | ].
    now apply gtts_fallback_first_real_audio_aux in H.
Qed.

(** * The chat client on the multi-agent stream *)

Lemma client_step_content (state : pystr * json) (c n m : pystr) :
  client_step state (content_event c n m) = Some (fst state ++ c, JStr n).
Proof. reflexivity. Qed.

Lemma client_step_error (state : pystr * json) (e : exn) :
  client_step state (error_event e)
  = Some (fst state ++ lit "Error: " ++ e, snd state).
Proof. reflexivity. Qed.

Lemma content_of_error (e : exn) :
  content_of (error_event e) = lit "Error: " ++ e.
Proof. reflexivity. Qed.

Section Client.
Context {O : Type}.
Variable oracle : forall c : call, O -> result (resp c) * O.
Variable dumps : json -> pystr.
Variable cfg : Settings.
Variable payload : MultiModalRequest.

Lemma client_always :
  always (event_generator dumps cfg payload)
    (fun t res =>
       exists shown,
         stream_response (emitted t) = Some (streamed_text t, shown) /\
         (shown = JStr (lit "unknown") /\
          existsb (fun ev => negb (is_error_event ev)) (emitted t) = false \/
          exists n, routed_to t = [n] /\ shown = JStr n)).
Proof.
  unfold event_generator.
  destruct (mem0_enabled cfg); explore_more.
  all: unfold stream_response, streamed_text;
    cbn [client_loop map List.concat emitted];
    rewrite ?client_step_content, ?client_step_error;
    cbn [client_loop fst snd];
    rewrite ?client_step_content, ?client_step_error;
    cbn [client_loop fst snd];
    rewrite ?client_step_content, ?client_step_error;
    cbn [client_loop fst snd];
    rewrite ?content_of_content, ?content_of_error, ?app_nil_r;
    cbn [app]; rewrite <- ?app_assoc.
  all: eexists; split; [ reflexivity | ].
  all: first [ left; split; reflexivity
             | right; eexists; split; reflexivity ].
Qed.

(** X26. The chat client never fails on what the multi-agent stream
    sends: the text it accumulates is the concatenation of the
    [content] values of all fragments, the error fragment's [Error: ...]
    included, after whatever was streamed; the agent it shows is the
    domain the router returned, or [unknown] when the request failed
    before any content fragment. *)
Theorem client_shows_streamed_text (w : World O) :
  let r := run oracle (event_generator dumps cfg payload) w in
  exists shown,
    stream_response (emitted (trace_of r))
    = Some (streamed_text (trace_of r), shown) /\
    (shown = JStr (lit "unknown") /\
     existsb (fun ev => negb (is_error_event ev)) (emitted (trace_of r)) = false \/
     exists n, routed_to (trace_of r) = [n] /\ shown = JStr n).
Proof.
  intros r. subst r.
  exact (run_always oracle _ _ w client_always).
Qed.

End Client.

Lemma gtts_fallback_first_real_audio_witness :
  gtts_fallback (Ok tt) sample_synth (lit "hi") = Some large_audio /\
  1000 < List.length large_audio.
Proof.
  assert (H : gtts_fallback (Ok tt) sample_synth (lit "hi") = Some large_audio)
    by (vm_compute; reflexivity).
  split; [ exact H | ].
  exact (proj1 (gtts_fallback_first_real_audio
                  (Ok tt) sample_synth (lit "hi") large_audio H)).
Defined.

Lemma text_to_speech_sources_witness :
  text_to_speech true speech_small (Ok tt) sample_synth (lit "hi") (lit "alloy")
  = Some small_audio /\
  blank (lit "hi") = false /\
  List.length small_audio = 1000.
Proof.
  assert (H : text_to_speech true speech_small (Ok tt) sample_synth
                (lit "hi") (lit "alloy") = Some small_audio)
    by (vm_compute; reflexivity).
  split; [ exact H | ].
  split; [ | vm_compute; reflexivity ].
  exact (proj1 (text_to_speech_sources
                  true speech_small (Ok tt) sample_synth
                  (lit "hi") (lit "alloy") small_audio H)).
Defined.
